(** * extract.py: copying the latest test binary

    A shallow embedding of [extract.py], the script that reads the
    newline-delimited JSON log [latest_test.json], takes the first entry of
    the ["filenames"] field of its second-to-last record and copies that
    file to [target/test/latest_tests].

    The script is thirteen lines of module-level code over library calls;
    the embedding keeps its statements in order, in a state-and-exception
    monad over a world made of a file system and the standard output.  The
    library calls ([open], iteration over a text file, [list] and [dict]
    access, truth-value testing, [os.makedirs], [os.path.join],
    [shutil.copy], [print]) are modelled next to it.  The two codecs the
    script relies on, the text decoding of [open(..., 'r')] and
    [json.loads], are parameters of the script. *)

From Stdlib Require Import ZArith String Ascii List Lia.
From Stdlib Require Import Strings.Byte.
From Stdlib Require Import Floats.SpecFloat.
From stdpp Require Import gmap strings list fin_maps.

Set Warnings "-register-all".
Local Open Scope Z_scope.
Local Open Scope string_scope.

(** ** Python values

    The values [json.loads] can return: [None], [bool], [int], [float],
    [str], [list] and [dict] with [str] keys.  A [str] is a sequence of
    characters, here the 8-bit characters of [string]. *)

Inductive pyval : Type :=
| PNone
| PBool (b : bool)
| PInt (z : Z)
| PFloat (f : spec_float)
| PStr (s : string)
| PList (l : list pyval)
| PDict (d : gmap string pyval).

(** Exceptions the script can end with. *)
Inductive exn : Type :=
| FileNotFoundError
| IsADirectoryError
| NotADirectoryError
| FileExistsError
| OSError
| SameFileError
| UnicodeDecodeError
| JSONDecodeError
| IndexError
| KeyError
| TypeError
| AttributeError
| ValueError
| OverflowError
| RecursionError
| PermissionError.

(** The result of an expression: a value, or a raised exception. *)
Inductive result (A : Type) : Type :=
| Ok (a : A)
| Raise (e : exn).
Arguments Ok {A} a.
Arguments Raise {A} e.

#[global] Instance result_ret : MRet result := λ A, @Ok A.
#[global] Instance result_bind : MBind result := λ A B f r,
  match r with Ok a => f a | Raise e => Raise e end.

(** ** The world: a file system and the standard output

    A path is identified with its spelling: there are no links, no [.] or
    [..] components, no doubled or trailing separators, and two spellings
    are two files.  A regular file holds bytes and carries its permission
    bits, the nine bits of [st_mode & 0o777]: [shutil.copy] hands them on
    from the source to the destination.  The set-id and sticky bits, the
    owners and the times are not in the world.  The script runs for an
    unprivileged user who owns the files, so that the bits of the owner
    decide what it may read and write; directories can be searched and
    written. *)

Inductive node : Type :=
| File (data : list Byte.byte) (mode : Z)
| Dir.

(** [mode & stat.S_IRUSR] (0o400) and [mode & stat.S_IWUSR] (0o200). *)
Definition readable (mode : Z) : bool := Z.testbit mode 8.
Definition writable (mode : Z) : bool := Z.testbit mode 7.
Arguments readable : simpl never.
Arguments writable : simpl never.

(** The bits a new file gets from [open]: 0o666 less those of the umask,
    taken to be 0o022.  [shutil.copy] replaces them at once. *)
Definition umask : Z := 18.
Definition created_mode : Z := Z.land 438 (Z.lnot umask).

Record world : Type := World {
  fs : gmap string node;
  stdout : string
}.

(** Statements: the world is threaded through, and it is kept when an
    exception is raised, so that the effects that came before stay. *)
Definition M (A : Type) : Type := world → result A * world.

#[global] Instance M_ret : MRet M := λ A a w, (Ok a, w).
#[global] Instance M_bind : MBind M := λ A B f m w,
  match m w with
  | (Ok a, w') => f a w'
  | (Raise e, w') => (Raise e, w')
  end.

Definition lift {A} (r : result A) : M A := λ w, (r, w).
Definition raise {A} (e : exn) : M A := λ w, (Raise e, w).
Definition gets {A} (f : gmap string node → A) : M A := λ w, (Ok (f (fs w)), w).
Definition catch {A} (m : M A) (h : exn → M A) : M A := λ w,
  match m w with
  | (Ok a, w') => (Ok a, w')
  | (Raise e, w') => h e w'
  end.

(** The exit status of the interpreter: 0 at the end of the module, 1 after
    an uncaught exception (whose traceback goes to the standard error). *)
Definition exit_code {A} (r : result A) : Z :=
  match r with Ok _ => 0 | Raise _ => 1 end.

(** ** Characters and strings *)

Definition dquote : ascii := "034"%char.
Definition newline : ascii := "010"%char.
Definition creturn : ascii := "013"%char.
Definition slash : ascii := "/"%char.

Definition nonempty (s : string) : bool :=
  match s with EmptyString => false | String _ _ => true end.

(** [s.startswith('/')] and [s.endswith('/')]. *)
Definition startswith_sep (s : string) : bool :=
  match s with String c _ => Ascii.eqb c slash | EmptyString => false end.

Fixpoint endswith_sep (s : string) : bool :=
  match s with
  | EmptyString => false
  | String c EmptyString => Ascii.eqb c slash
  | String _ r => endswith_sep r
  end.

(** [s == '/' * len(s)] *)
Fixpoint all_sep (s : string) : bool :=
  match s with
  | EmptyString => true
  | String c r => Ascii.eqb c slash && all_sep r
  end.

(** [s.rstrip('/')] *)
Fixpoint rstrip_sep (s : string) : string :=
  match s with
  | EmptyString => EmptyString
  | String c r =>
    match rstrip_sep r with
    | EmptyString => if Ascii.eqb c slash then EmptyString else String c EmptyString
    | r' => String c r'
    end
  end.

(** [(p[:i], p[i:])] for [i = p.rfind('/') + 1]. *)
Fixpoint cut_last_sep (p : string) : string * string :=
  match p with
  | EmptyString => (EmptyString, EmptyString)
  | String c r =>
    let (h, t) := cut_last_sep r in
    if Ascii.eqb c slash then (String c h, t)
    else if nonempty h then (String c h, t)
    else (EmptyString, String c t)
  end.

(** [os.path.split] (posixpath). *)
Definition os_path_split (p : string) : string * string :=
  let (head, tail) := cut_last_sep p in
  (if nonempty head && negb (all_sep head) then rstrip_sep head else head, tail).

(** [os.path.basename] (posixpath). *)
Definition os_path_basename (p : string) : string := snd (cut_last_sep p).

(** [os.path.join] of two components (posixpath). *)
Definition os_path_join (a b : string) : string :=
  if startswith_sep b then b
  else if negb (nonempty a) || endswith_sep a then a +:+ b
  else a +:+ "/" +:+ b.

(** The lines a text file yields when iterated over, with universal
    newlines: a line ends at ['\n'], ['\r'] or ['\r\n'], each of them read
    as ['\n'] and kept at the end of the line; a last line without
    terminator is yielded as it is.  [cur] holds the characters of the
    line being read. *)
Fixpoint readlines_from (cur : string) (s : string) : list string :=
  match s with
  | EmptyString => if nonempty cur then [cur] else []
  | String c r =>
    if Ascii.eqb c newline then (cur +:+ String newline EmptyString) :: readlines_from EmptyString r
    else if Ascii.eqb c creturn then
      match r with
      | String c' r' =>
        if Ascii.eqb c' newline
        then (cur +:+ String newline EmptyString) :: readlines_from EmptyString r'
        else (cur +:+ String newline EmptyString) :: readlines_from EmptyString r
      | EmptyString => [cur +:+ String newline EmptyString]
      end
    else readlines_from (cur +:+ String c EmptyString) r
  end.

Definition readlines (s : string) : list string := readlines_from EmptyString s.

(** ** Truth-value testing and item access *)

(** [bool(v)], what [if v:] tests. *)
Definition truthy (v : pyval) : bool :=
  match v with
  | PNone => false
  | PBool b => b
  | PInt z => negb (Z.eqb z 0)
  | PFloat f => match f with S754_zero _ => false | _ => true end
  | PStr s => nonempty s
  | PList l => match l with [] => false | _ :: _ => true end
  | PDict d => negb (Nat.eqb (size d) 0)
  end.

(** [l[i]] on a list: a negative index counts from the end. *)
Definition list_getitem {A} (l : list A) (i : Z) : result A :=
  let n := Z.of_nat (length l) in
  let j := if Z.ltb i 0 then (i + n)%Z else i in
  if Z.ltb j 0 || Z.leb n j then Raise IndexError
  else match l !! Z.to_nat j with
       | Some x => Ok x
       | None => Raise IndexError
       end.

(** [v.get(key, default)]: only a [dict] has the method. *)
Definition py_get (v : pyval) (key : string) (default : pyval) : result pyval :=
  match v with
  | PDict d => Ok (match d !! key with Some x => x | None => default end)
  | _ => Raise AttributeError
  end.

(** [v[i]] for an integer [i]: an item of a list, a character of a string;
    a dict decoded from JSON has only [str] keys, so that an integer key is
    never found; the other values are not subscriptable. *)
Definition py_getitem (v : pyval) (i : Z) : result pyval :=
  match v with
  | PList l => list_getitem l i
  | PStr s => c ← list_getitem (list_ascii_of_string s) i; Ok (PStr (String c EmptyString))
  | PDict _ => Raise KeyError
  | _ => Raise TypeError
  end.

(** ** File-system calls *)

(** What [stat] finds at a path: nothing at the empty path, the root
    directory at a path made of slashes. *)
Definition node_at (t : gmap string node) (p : string) : option node :=
  match p with
  | EmptyString => None
  | _ => if all_sep p then Some Dir else t !! p
  end.

Definition os_path_exists (t : gmap string node) (p : string) : bool :=
  match node_at t p with Some _ => true | None => false end.

Definition os_path_isdir (t : gmap string node) (p : string) : bool :=
  match node_at t p with Some Dir => true | _ => false end.

(** [os.path.samefile], caught as in [shutil._samefile]: paths that cannot
    be [stat]ed are not the same file. *)
Definition samefile (t : gmap string node) (p q : string) : bool :=
  os_path_exists t p && os_path_exists t q && bool_decide (p = q).

(** The directory that is to hold [p] must be there: the working directory
    for a bare name. *)
Definition resolve_parent (t : gmap string node) (p : string) : result unit :=
  match fst (os_path_split p) with
  | EmptyString => Ok tt
  | head =>
    match node_at t head with
    | Some Dir => Ok tt
    | Some (File _ _) => Raise NotADirectoryError
    | None => Raise FileNotFoundError
    end
  end.

(** [os.mkdir] *)
Definition os_mkdir (p : string) : M unit := λ w,
  match p with
  | EmptyString => (Raise FileNotFoundError, w)
  | _ =>
    match resolve_parent (fs w) p with
    | Raise e => (Raise e, w)
    | Ok _ =>
      match node_at (fs w) p with
      | Some _ => (Raise FileExistsError, w)
      | None => (Ok tt, World (<[p := Dir]> (fs w)) (stdout w))
      end
    end
  end.

(** [os.makedirs(name, exist_ok=exist_ok)], as in [os.py]: the missing
    parents first, by recursion on the head of the path, then the leaf; an
    [OSError] of the leaf's [mkdir] is dropped when [exist_ok] holds and
    the leaf is a directory.  The recursion is on a path that gets
    shorter; [fuel] bounds it. *)
Fixpoint makedirs_rec (fuel : nat) (name : string) (exist_ok : bool) : M unit :=
  match fuel with
  | O => raise RecursionError
  | S fuel' =>
    let (head0, tail0) := os_path_split name in
    let (head, tail) := if nonempty tail0 then (head0, tail0) else os_path_split head0 in
    there ← gets (λ t, os_path_exists t head);
    finished ←
      (if nonempty head && nonempty tail && negb there then
         catch (makedirs_rec fuel' head exist_ok)
               (λ e, match e with FileExistsError => mret tt | _ => raise e end);;
         mret (bool_decide (tail = "."))
       else mret false);
    if (finished : bool) then mret tt
    else
      catch (os_mkdir name)
            (λ e, isdir ← gets (λ t, os_path_isdir t name);
                  if negb exist_ok || negb isdir then raise e else mret tt)
  end.

Definition os_makedirs (name : string) (exist_ok : bool) : M unit :=
  makedirs_rec (S (String.length name)) name exist_ok.

(** A path with a NUL character is refused by the interpreter, with
    [ValueError], before the system is asked. *)
Fixpoint has_nul (p : string) : bool :=
  match p with
  | EmptyString => false
  | String c r => Ascii.eqb c "000" || has_nul r
  end.

(** The limits of the system on the length of a name and of a path. *)
Definition name_max : nat := 255.
Definition path_max : nat := 4096.

(** The directories on the way to [p], outermost first: the prefixes of
    [p] that end before a separator.  [seen] holds the characters read. *)
Fixpoint prefixes_from (seen rest : string) : list string :=
  match rest with
  | EmptyString => []
  | String c r =>
    if Ascii.eqb c slash then
      (if nonempty seen && negb (endswith_sep seen) then [seen] else [])
        ++ prefixes_from (seen +:+ String c EmptyString) r
    else prefixes_from (seen +:+ String c EmptyString) r
  end.

Definition ancestors (p : string) : list string := prefixes_from EmptyString p.

(** The walk of the system along the directories [qs] on the way to a path
    that names nothing: it stops at a name that is too long, at a regular
    file, and at the first directory that is not there; [leaf] is the error
    of the last step. *)
Fixpoint walk (t : gmap string node) (qs : list string) (leaf : exn) : exn :=
  match qs with
  | [] => leaf
  | q :: rest =>
    if Nat.ltb name_max (String.length (os_path_basename q)) then OSError
    else match node_at t q with
         | Some Dir => walk t rest leaf
         | Some (File _ _) => NotADirectoryError
         | None => FileNotFoundError
         end
  end.

(** What [open(p, 'rb')] and [os.stat(p)] raise for a path that names
    nothing. *)
Definition missing_error (t : gmap string node) (p : string) : exn :=
  if has_nul p then ValueError
  else if Nat.leb path_max (String.length p) then OSError
  else walk t (ancestors p)
            (if Nat.ltb name_max (String.length (os_path_basename p)) then OSError
             else FileNotFoundError).

(** [open(p, 'rb').read()] *)
Definition read_bytes (p : string) : M (list Byte.byte) := λ w,
  match node_at (fs w) p with
  | Some (File data mode) =>
    if readable mode then (Ok data, w) else (Raise PermissionError, w)
  | Some Dir => (Raise IsADirectoryError, w)
  | None => (Raise (missing_error (fs w) p), w)
  end.

(** Whether [open(p, 'wb')] succeeds: the directory of [p] is there, and
    [p] is new or a regular file that may be written. *)
Definition write_check (t : gmap string node) (p : string) : result unit :=
  match p with
  | EmptyString => Raise FileNotFoundError
  | _ =>
    match resolve_parent t p with
    | Raise e => Raise e
    | Ok _ =>
      match node_at t p with
      | Some Dir => Raise IsADirectoryError
      | Some (File _ mode) => if writable mode then Ok tt else Raise PermissionError
      | None => Ok tt
      end
    end
  end.

(** The bits of the file at [p] once it was opened for writing: a file
    that was there keeps its own. *)
Definition mode_after_open (t : gmap string node) (p : string) : Z :=
  match node_at t p with
  | Some (File _ mode) => mode
  | _ => created_mode
  end.

(** [open(p, 'wb').write(data)]: the file is created or replaced. *)
Definition write_bytes (p : string) (data : list Byte.byte) : M unit := λ w,
  match write_check (fs w) p with
  | Raise e => (Raise e, w)
  | Ok _ => (Ok tt, World (<[p := File data (mode_after_open (fs w) p)]> (fs w)) (stdout w))
  end.

(** [shutil.copyfile]: the source is opened first, then the destination. *)
Definition shutil_copyfile (src dst : string) : M unit :=
  same ← gets (λ t, samefile t src dst);
  if (same : bool) then raise SameFileError
  else data ← read_bytes src; write_bytes dst data.

(** [shutil.copymode]: [os.chmod(dst, stat.S_IMODE(os.stat(src).st_mode))],
    which the owner of [dst] is allowed.  The bits of a directory are not in
    the world. *)
Definition shutil_copymode (src dst : string) : M unit := λ w,
  match node_at (fs w) src with
  | Some (File _ mode) =>
    match node_at (fs w) dst with
    | Some (File data _) => (Ok tt, World (<[dst := File data mode]> (fs w)) (stdout w))
    | Some Dir => (Ok tt, w)
    | None => (Raise (missing_error (fs w) dst), w)
    end
  | Some Dir => (Ok tt, w)
  | None => (Raise (missing_error (fs w) src), w)
  end.

(** What [open(n, 'rb')] raises for a number [n], which the library takes
    as a file descriptor: out of the range of a C [int], negative, or, as
    there are no descriptors in the world, not open for reading. *)
Definition descriptor_error (n : Z) : exn :=
  if Z.ltb n (-2147483648) || Z.ltb 2147483647 n then OverflowError
  else if Z.ltb n 0 then ValueError
  else OSError.

(** [shutil.copy(src, dst)]: into [dst] when it is a directory, under the
    base name of [src]; [copyfile], then [copymode].  The source of the
    script is a decoded JSON value: a string is a path, a number (a [bool]
    is one) a descriptor, and the other values are rejected. *)
Definition shutil_copy (src : pyval) (dst : string) : M string :=
  match src with
  | PStr s =>
    isdir ← gets (λ t, os_path_isdir t dst);
    let dst' := if (isdir : bool) then os_path_join dst (os_path_basename s) else dst in
    shutil_copyfile s dst';;
    shutil_copymode s dst';;
    mret dst'
  | PInt n =>
    isdir ← gets (λ t, os_path_isdir t dst);
    if (isdir : bool) then raise TypeError else raise (descriptor_error n)
  | PBool b =>
    isdir ← gets (λ t, os_path_isdir t dst);
    if (isdir : bool) then raise TypeError else raise (descriptor_error (if b then 1 else 0))
  | _ => raise TypeError
  end.

(** [print(s)] *)
Definition print (s : string) : M unit := λ w,
  (Ok tt, World (fs w) (stdout w +:+ s +:+ String newline EmptyString)).

(** ** The script *)

Section Extract.

(** The text decoding of [open(..., 'r')] (the codec of the locale) and
    [json.loads]: [None] stands for [UnicodeDecodeError] and
    [json.JSONDecodeError]. *)
Variable decode : list Byte.byte → option string.
Variable loads : string → option pyval.

(** [open(name, 'r')] and the text read from it.  The text is decoded at
    once; the interpreter decodes it by blocks while the lines are read. *)
Definition open_text (name : string) : M string :=
  data ← read_bytes name;
  match decode data with
  | Some text => mret text
  | None => raise UnicodeDecodeError
  end.

Definition json_loads (line : string) : result pyval :=
  match loads line with
  | Some v => Ok v
  | None => Raise JSONDecodeError
  end.

(** Lines 3-4: the records of the log. *)
Definition read_json_data : M (list pyval) :=
  file ← open_text "latest_test.json";
  lift (mapM json_loads (readlines file)).

(** Line 6: [json_data[-2].get("filenames", [None])[0]]. *)
Definition select (json_data : list pyval) : result pyval :=
  record ← list_getitem json_data (-2);
  filenames ← py_get record "filenames" (PList [PNone]);
  py_getitem filenames 0.

(** Lines 7-13. *)
Definition deliver (test_binary_path : pyval) : M unit :=
  if truthy test_binary_path then
    let target_directory := "target/test" in
    os_makedirs target_directory true;;
    shutil_copy test_binary_path (os_path_join target_directory "latest_tests");;
    mret tt
  else
    print "An error has occured. Wrong json format!".

Definition extract : M unit :=
  json_data ← read_json_data;
  test_binary_path ← lift (select json_data);
  deliver test_binary_path.

End Extract.

(** ** Codecs to run the script with *)

(** The ASCII codec: a byte above 127 is a decoding error. *)
Definition decode_ascii (data : list Byte.byte) : option string :=
  if forallb (λ b, N.ltb (Byte.to_N b) 128) data
  then Some (string_of_list_byte data)
  else None.

(** A JSON decoder for the documents made of objects, arrays, strings with
    the one-letter escapes, integers, [true], [false] and [null].  It
    follows the scanner of [json.decoder]; fractions, exponents, [\u]
    escapes and the constants [NaN] and [Infinity] are outside of it, and
    rejected. *)
Definition is_ws (c : ascii) : bool :=
  Ascii.eqb c " " || Ascii.eqb c "009" || Ascii.eqb c newline || Ascii.eqb c creturn.

Fixpoint skip_ws (s : string) : string :=
  match s with
  | String c r => if is_ws c then skip_ws r else s
  | EmptyString => s
  end.

Definition is_digit (c : ascii) : bool :=
  Nat.leb 48 (nat_of_ascii c) && Nat.leb (nat_of_ascii c) 57.

Definition digit_value (c : ascii) : Z := Z.of_nat (nat_of_ascii c) - 48.

Fixpoint scan_digits (acc : Z) (s : string) : Z * string :=
  match s with
  | String c r => if is_digit c then scan_digits (10 * acc + digit_value c) r else (acc, s)
  | EmptyString => (acc, s)
  end.

(** An optional minus sign, then a zero or a number without leading zero;
    not followed by a fraction or an exponent. *)
Definition scan_int (s : string) : option (Z * string) :=
  let (negative, s1) :=
    match s with
    | String c r => if Ascii.eqb c "-" then (true, r) else (false, s)
    | EmptyString => (false, s)
    end in
  match s1 with
  | String c r =>
    if is_digit c then
      let (n, rest) := if Ascii.eqb c "0" then (0, r) else scan_digits 0 s1 in
      let float_follows :=
        match rest with
        | String d _ => Ascii.eqb d "." || Ascii.eqb d "e" || Ascii.eqb d "E"
        | EmptyString => false
        end in
      if float_follows then None else Some (if negative then - n else n, rest)
    else None
  | EmptyString => None
  end.

Definition unescape (c : ascii) : option ascii :=
  if Ascii.eqb c dquote then Some dquote
  else if Ascii.eqb c "092" then Some "092"%char
  else if Ascii.eqb c "/" then Some "/"%char
  else if Ascii.eqb c "b" then Some "008"%char
  else if Ascii.eqb c "f" then Some "012"%char
  else if Ascii.eqb c "n" then Some newline
  else if Ascii.eqb c "r" then Some creturn
  else if Ascii.eqb c "t" then Some "009"%char
  else None.

(** The characters of a string, after its opening quote: up to the closing
    quote; a control character is refused. *)
Fixpoint scan_string (s : string) : option (string * string) :=
  match s with
  | EmptyString => None
  | String c r =>
    if Ascii.eqb c dquote then Some (EmptyString, r)
    else if Ascii.eqb c "092" then
      match r with
      | String e r' =>
        ch ← unescape e; '(t, rest) ← scan_string r'; Some (String ch t, rest)
      | EmptyString => None
      end
    else if Nat.ltb (nat_of_ascii c) 32 then None
    else '(t, rest) ← scan_string r; Some (String c t, rest)
  end.

Fixpoint strip_prefix (p s : string) : option string :=
  match p with
  | EmptyString => Some s
  | String a p' =>
    match s with
    | String b s' => if Ascii.eqb a b then strip_prefix p' s' else None
    | EmptyString => None
    end
  end.

Fixpoint scan_value (fuel : nat) (s : string) : option (pyval * string) :=
  match fuel with
  | O => None
  | S n =>
    match s with
    | EmptyString => None
    | String c r =>
      if Ascii.eqb c dquote then '(t, rest) ← scan_string r; Some (PStr t, rest)
      else if Ascii.eqb c "{" then
        match skip_ws r with
        | String c' r' =>
          if Ascii.eqb c' "}" then Some (PDict ∅, r') else scan_members n ∅ (skip_ws r)
        | EmptyString => None
        end
      else if Ascii.eqb c "[" then
        match skip_ws r with
        | String c' r' =>
          if Ascii.eqb c' "]" then Some (PList [], r') else scan_elements n [] (skip_ws r)
        | EmptyString => None
        end
      else if Ascii.eqb c "n" then rest ← strip_prefix "ull" r; Some (PNone, rest)
      else if Ascii.eqb c "t" then rest ← strip_prefix "rue" r; Some (PBool true, rest)
      else if Ascii.eqb c "f" then rest ← strip_prefix "alse" r; Some (PBool false, rest)
      else '(z, rest) ← scan_int s; Some (PInt z, rest)
    end
  end
with scan_elements (fuel : nat) (acc : list pyval) (s : string) : option (pyval * string) :=
  match fuel with
  | O => None
  | S n =>
    '(v, rest) ← scan_value n s;
    match skip_ws rest with
    | String c r =>
      if Ascii.eqb c "," then scan_elements n (acc ++ [v]) (skip_ws r)
      else if Ascii.eqb c "]" then Some (PList (acc ++ [v]), r)
      else None
    | EmptyString => None
    end
  end
with scan_members (fuel : nat) (acc : gmap string pyval) (s : string) : option (pyval * string) :=
  match fuel with
  | O => None
  | S n =>
    match s with
    | String c r =>
      if Ascii.eqb c dquote then
        '(key, rest) ← scan_string r;
        match skip_ws rest with
        | String c1 r1 =>
          if Ascii.eqb c1 ":" then
            '(v, rest2) ← scan_value n (skip_ws r1);
            match skip_ws rest2 with
            | String c2 r2 =>
              if Ascii.eqb c2 "," then scan_members n (<[key := v]> acc) (skip_ws r2)
              else if Ascii.eqb c2 "}" then Some (PDict (<[key := v]> acc), r2)
              else None
            | EmptyString => None
            end
          else None
        | EmptyString => None
        end
      else None
    | EmptyString => None
    end
  end.

Definition loads_basic (s : string) : option pyval :=
  '(v, rest) ← scan_value (2 * String.length s + 2) (skip_ws s);
  match skip_ws rest with
  | EmptyString => Some v
  | String _ _ => None
  end.

(** ** Sample logs and worlds *)

(** A word between double quotes. *)
Definition quoted (s : string) : string :=
  String dquote (s +:+ String dquote EmptyString).

(** The text of a log, each line followed by a line feed, and its bytes. *)
Definition text_of (lines : list string) : string :=
  String.concat EmptyString (map (λ l, l +:+ String newline EmptyString) lines).

Definition log_of (lines : list string) : list Byte.byte :=
  list_byte_of_string (text_of lines).

(** [{"filenames":[f1,...]}] *)
Definition artifact_line (files : list string) : string :=
  "{" +:+ quoted "filenames" +:+ ":[" +:+ String.concat "," (map quoted files) +:+ "]}".

Definition bytes_a : list Byte.byte := list_byte_of_string "binary a".
Definition bytes_b : list Byte.byte := list_byte_of_string "binary b".

(** The bits of a text file, 0o644; of a binary, 0o755; of a binary that
    its owner may not write, 0o555. *)
Definition mode_text : Z := 420.
Definition mode_binary : Z := 493.
Definition mode_read_only : Z := 365.

(** A world with two binaries in [/tmp] and the log made of [lines]. *)
Definition world_of_log (lines : list string) : world :=
  World (<["latest_test.json" := File (log_of lines) mode_text]>
         (<["/tmp" := Dir]>
          (<["/tmp/a" := File bytes_a mode_binary]>
           (<["/tmp/b" := File bytes_b mode_binary]> ∅))))
        EmptyString.

(** The scenario of the specification: two lines, [/tmp/a] in the first. *)
Definition world_ab : world :=
  world_of_log [artifact_line ["/tmp/a"]; artifact_line ["/tmp/b"; "/tmp/c"]].

(** [{"reason":"build-finished","success":true}], a record without file
    names. *)
Definition finished_line : string :=
  "{" +:+ quoted "reason" +:+ ":" +:+ quoted "build-finished" +:+ ","
      +:+ quoted "success" +:+ ":true}".

(** [{"filenames":null}] *)
Definition null_line : string := "{" +:+ quoted "filenames" +:+ ":null}".

Definition world_absent : world := world_of_log [finished_line; finished_line].
Definition world_null : world := world_of_log [null_line; finished_line].
Definition world_empty : world := world_of_log [artifact_line []; finished_line].
Definition world_blank : world := world_of_log [artifact_line [""; "/tmp/a"]; finished_line].
Definition world_single : world := world_of_log [artifact_line ["/tmp/a"]].
Definition world_broken : world :=
  world_of_log [artifact_line ["/tmp/a"]; "{oops"; finished_line].
Definition world_nolog : world := World ∅ EmptyString.

(** The records the sample lines decode to. *)
Definition names_record (files : list string) : pyval :=
  PDict {["filenames" := PList (PStr <$> files)]}.
Definition null_record : pyval := PDict {["filenames" := PNone]}.
Definition finished_record : pyval :=
  PDict (<["reason" := PStr "build-finished"]> {["success" := PBool true]}).

(** A world where the destination directory is there already. *)
Definition world_built : world :=
  World (<["target/test" := Dir]> (<["target" := Dir]> ∅)) EmptyString.

(** Worlds where the destination cannot be written as a file: a directory
    stands at [target/test/latest_tests], a regular file at [target]. *)
Definition world_dir_at_destination : world :=
  World (<["target/test/latest_tests" := Dir]>
         (<["target/test" := Dir]> (<["target" := Dir]> (fs world_ab))))
        EmptyString.

Definition world_file_at_target : world :=
  World (<["target" := File bytes_b mode_binary]> (fs world_ab)) EmptyString.

(** Logs for a second run. *)
Definition log_a_finished : list Byte.byte := log_of [artifact_line ["/tmp/a"]; finished_line].

(** ** Notions the properties are stated with *)

Definition log_name : string := "latest_test.json".
Definition destination : string := "target/test/latest_tests".
Definition diagnostic : string := "An error has occured. Wrong json format!".

(** The record at index [length - 2], when there are two records. *)
Definition second_to_last {A} (l : list A) : option A :=
  if decide (2 ≤ length l)%nat then l !! (length l - 2)%nat else None.

(** The log of the world [w] can be opened and read, and each of its lines
    is well-formed JSON: [records] are the decoded lines, in order. *)
Definition holds_records (decode : list Byte.byte → option string)
    (loads : string → option pyval) (w : world) (records : list pyval) : Prop :=
  ∃ data mode text,
    fs w !! log_name = Some (File data mode) ∧
    readable mode = true ∧
    decode data = Some text ∧
    Forall2 (λ line v, loads line = Some v) (readlines text) records.


(** The world after [s] was printed. *)
Definition printed (s : string) (w : world) : world :=
  World (fs w) (stdout w +:+ s +:+ String newline EmptyString).

(** The file system, and the world, after the log was written anew between
    two runs: it keeps the bits it had. *)
Definition relog (data : list Byte.byte) (t : gmap string node) : gmap string node :=
  <[log_name := File data (mode_after_open t log_name)]> t.

Definition with_log (data : list Byte.byte) (w : world) : world :=
  World (relog data (fs w)) (stdout w).

(** [p] is made a directory unless something is there. *)
Definition ensure_dir (p : string) (t : gmap string node) : gmap string node :=
  match t !! p with
  | Some _ => t
  | None => <[p := Dir]> t
  end.

(** What [os.makedirs('target/test', exist_ok=True)] comes to, on the file
    system [t]. *)
Definition makedirs_outcome (t : gmap string node) (out : string) : result unit * world :=
  let t1 := ensure_dir "target" t in
  match t1 !! "target", t1 !! "target/test" with
  | _, Some Dir => (Ok tt, World t1 out)
  | Some Dir, None => (Ok tt, World (<["target/test" := Dir]> t1) out)
  | Some Dir, Some (File _ _) => (Raise FileExistsError, World t1 out)
  | Some (File _ _), _ => (Raise NotADirectoryError, World t1 out)
  | None, _ => (Raise FileNotFoundError, World t1 out)
  end.

(** The kind of what is at a path: nothing, a regular file with its bits,
    a directory. *)
Inductive kind : Type := Absent | Regular (mode : Z) | Directory.

Definition kind_of (o : option node) : kind :=
  match o with
  | None => Absent
  | Some (File _ mode) => Regular mode
  | Some Dir => Directory
  end.

(** What [shutil.copy(s, dst)] comes to, for a string [s]. *)
Definition copy_outcome (t : gmap string node) (out : string) (s dst : string)
    : result string * world :=
  let dst' := if os_path_isdir t dst then os_path_join dst (os_path_basename s) else dst in
  if samefile t s dst' then (Raise SameFileError, World t out)
  else
    match node_at t s with
    | Some (File data mode) =>
      if readable mode then
        match write_check t dst' with
        | Ok _ => (Ok dst', World (<[dst' := File data mode]> t) out)
        | Raise e => (Raise e, World t out)
        end
      else (Raise PermissionError, World t out)
    | Some Dir => (Raise IsADirectoryError, World t out)
    | None => (Raise (missing_error t s), World t out)
    end.

(** Two runs are observed alike: same result, same output. *)
Definition same_observation {A} (x1 x2 : result A * world) : Prop :=
  fst x1 = fst x2 ∧ stdout (snd x1) = stdout (snd x2).

(** The file system of the second run is the one of the first, up to the
    log [data] that was put in place before it. *)
Definition up_to_log {A} (data : list Byte.byte) (x1 x2 : result A * world) : Prop :=
  fs (snd x2) = relog data (fs (snd x1)).

(** ** Notions for the further properties *)

(** The file system once [target] and [target/test] were made directories,
    where nothing stood. *)
Definition with_directories (t : gmap string node) : gmap string node :=
  ensure_dir "target/test" (ensure_dir "target" t).

(** Where [shutil.copy] writes, for the source [s]: the destination, or
    the entry of the destination directory with the base name of [s]. *)
Definition written_path (t : gmap string node) (s : string) : string :=
  if os_path_isdir t destination
  then os_path_join destination (os_path_basename s)
  else destination.

(** [p] is a path under the destination, were it a directory. *)
Definition inside_destination (p : string) : bool :=
  match strip_prefix "target/test/latest_tests/" p with
  | Some _ => true
  | None => false
  end.

(** A decoded value that [shutil.copy] rejects as a source whatever the file
    system holds: a list, a dict, a float. *)
Definition not_a_path (v : pyval) : bool :=
  match v with
  | PList _ | PDict _ | PFloat _ => true
  | _ => false
  end.

(** A decoded value that [shutil.copy] would take as the number of a file
    descriptor: an [int], or a [bool], which is one. *)
Definition is_descriptor (v : pyval) : bool :=
  match v with
  | PInt _ | PBool _ => true
  | _ => false
  end.

(** How a run of the script can end, from the world [w]: with an exception
    of lines 3-6 and the world as it was; with the diagnostic printed; with
    an exception of [os.makedirs], after which [target] may have been made;
    with an exception of [shutil.copy], the directories made; or with the
    bytes of the selected source written. *)
Inductive ends (decode : list Byte.byte → option string) (loads : string → option pyval)
    (w : world) : result unit → world → Prop :=
| ends_early e :
    ends decode loads w (Raise e) w
| ends_diagnostic :
    ends decode loads w (Ok tt) (printed diagnostic w)
| ends_no_directory e t' :
    t' = fs w ∨ t' = ensure_dir "target" (fs w) →
    ends decode loads w (Raise e) (World t' (stdout w))
| ends_no_copy e :
    ends decode loads w (Raise e) (World (with_directories (fs w)) (stdout w))
| ends_copied records s data mode :
    holds_records decode loads w records →
    select records = Ok (PStr s) →
    node_at (with_directories (fs w)) s = Some (File data mode) →
    s ≠ written_path (with_directories (fs w)) s →
    with_directories (fs w) !! written_path (with_directories (fs w)) s ≠ Some Dir →
    ends decode loads w (Ok tt)
      (World (<[written_path (with_directories (fs w)) s := File data mode]>
                (with_directories (fs w)))
             (stdout w)).







(** A line without line terminator inside. *)
Fixpoint plain_line (l : string) : bool :=
  match l with
  | EmptyString => true
  | String c r => negb (Ascii.eqb c newline) && negb (Ascii.eqb c creturn) && plain_line r
  end.

(** The three line terminators of a text file: ['\n'], ['\r'], ['\r\n']. *)
Definition line_feed : string := String newline EmptyString.
Definition carriage_return : string := String creturn EmptyString.
Definition carriage_return_line_feed : string := String creturn (String newline EmptyString).

(** The text made of [lines], each followed by [ending]. *)
Fixpoint joined (ending : string) (lines : list string) : string :=
  match lines with
  | [] => EmptyString
  | l :: ls => l +:+ ending +:+ joined ending ls
  end.

(** The text does not begin with a line feed. *)
Definition no_leading_newline (s : string) : Prop :=
  match s with
  | String c _ => c ≠ newline
  | EmptyString => True
  end.

(** More sample lines and worlds. *)

(** [{"filenames":body}] *)
Definition names_line (body : string) : string :=
  "{" +:+ quoted "filenames" +:+ ":" +:+ body +:+ "}".

Definition world_zero : world := world_of_log [names_line "[0]"; finished_line].
Definition world_list_record : world := world_of_log ["[1]"; finished_line].
Definition world_names_string : world :=
  world_of_log [names_line (quoted "/tmp/a"); finished_line].
Definition world_nested : world := world_of_log [names_line "[[1]]"; finished_line].
Definition world_missing : world :=
  world_of_log [artifact_line ["/tmp/none"]; finished_line].
Definition world_dir_source : world :=
  World (<["/tmp/d" := Dir]> (fs (world_of_log [artifact_line ["/tmp/d"]; finished_line])))
        EmptyString.
Definition world_same_file : world :=
  World (<["target/test/latest_tests" := File bytes_b mode_binary]>
         (<["target/test" := Dir]>
          (<["target" := Dir]>
           (fs (world_of_log [artifact_line ["target/test/latest_tests"]; finished_line])))))
        EmptyString.
Definition world_file_at_test : world :=
  World (<["target/test" := File bytes_b mode_binary]> (<["target" := Dir]> (fs world_ab)))
        EmptyString.
Definition log_a_b_finished : list Byte.byte :=
  log_of [artifact_line ["/tmp/a"; "/tmp/b"]; finished_line].

(** A world where the binary [/tmp/a] may not be written by its owner, and
    one where a file that may not be written stands at the destination. *)
Definition world_read_only : world :=
  World (<["/tmp/a" := File bytes_a mode_read_only]> (fs world_ab)) EmptyString.

Definition bytes_old : list Byte.byte := list_byte_of_string "old binary".

Definition world_locked_destination : world :=
  World (<["target/test/latest_tests" := File bytes_old mode_read_only]>
         (<["target/test" := Dir]> (<["target" := Dir]> (fs world_ab))))
        EmptyString.

(** Worlds whose log names a path under the regular file [/tmp/a], and a
    name of 300 characters; a path with a NUL, which a log can name with
    the escape [\u0000]. *)
Definition world_under_file : world :=
  world_of_log [artifact_line ["/tmp/a/x"]; finished_line].
Definition path_with_nul : string := String "a" (String "000" "b").
Definition long_name : string := string_of_list_ascii (replicate 300 "x"%char).
Definition world_long_name : world :=
  world_of_log [artifact_line [long_name]; finished_line].




Ltac run :=
  unfold mbind, M_bind, mret, M_ret, gets, catch, raise, lift.

Ltac crunch Ht Htt :=
  repeat (progress (cbn -[lookup insert bool_decide];
                    rewrite ?bool_decide_eq_false_2, ?lookup_insert_eq,
                            ?lookup_insert_ne, ?Ht, ?Htt by done)).

(** ** Running statements *)

Lemma bind_run {A B} (m : M A) (f : A → M B) (w : world) :
  (m ≫= f) w =
  match m w with
  | (Ok a, w') => f a w'
  | (Raise e, w') => (Raise e, w')
  end.
Proof. reflexivity. Qed.

Lemma lift_run {A} (r : result A) (w : world) : lift r w = (r, w).
Proof. reflexivity. Qed.

Lemma world_eta (w : world) : World (fs w) (stdout w) = w.
Proof. by destruct w. Qed.

(** ** Paths *)


Lemma cut_last_sep_tail p c :
  c ∈ list_ascii_of_string (snd (cut_last_sep p)) → c ≠ slash.
Proof.
  induction p as [|a r IH]; simpl; [by intros ?%elem_of_nil|].
  destruct (cut_last_sep r) as [h t] eqn:E; simpl in IH.
  destruct (Ascii.eqb a slash) eqn:Ea; simpl; [done|].
  destruct (nonempty h); simpl; [done|].
  intros [->|?]%elem_of_cons; [|by auto].
  by apply Ascii.eqb_neq in Ea.
Qed.

Lemma basename_not_absolute p : startswith_sep (os_path_basename p) = false.
Proof.
  unfold os_path_basename.
  pose proof (cut_last_sep_tail p) as H.
  destruct (snd (cut_last_sep p)) as [|c r]; [done|]. simpl.
  apply Ascii.eqb_neq, H. simpl. apply elem_of_cons. by left.
Qed.

Lemma append_cons a s t : String a s +:+ t = String a (s +:+ t).
Proof. reflexivity. Qed.

Lemma append_nil_l t : EmptyString +:+ t = t.
Proof. reflexivity. Qed.





(** ** The error for a path that names nothing *)



(** ** The log *)

Section Properties.

Variable decode : list Byte.byte → option string.
Variable loads : string → option pyval.

Lemma mapM_json_loads_ok lines records :
  Forall2 (λ line v, loads line = Some v) lines records →
  mapM (json_loads loads) lines = Ok records.
Proof.
  induction 1 as [|line v lines records Hv _ IH]; [done|].
  simpl. rewrite IH. unfold json_loads. by rewrite Hv.
Qed.

Lemma mapM_json_loads_invalid lines :
  Exists (λ line, loads line = None) lines →
  mapM (json_loads loads) lines = Raise JSONDecodeError.
Proof.
  induction lines as [|line lines IH]; intros H; [by apply Exists_nil in H|].
  simpl. destruct (json_loads loads line) as [v|e] eqn:Hl; simpl.
  - apply Exists_cons in H as [H|H].
    + unfold json_loads in Hl. by rewrite H in Hl.
    + by rewrite (IH H).
  - unfold json_loads in Hl. destruct (loads line); congruence.
Qed.

Lemma read_json_data_ok w records :
  holds_records decode loads w records →
  read_json_data decode loads w = (Ok records, w).
Proof.
  intros (data & mode & text & Hlog & Hmode & Hdec & Hlines).
  unfold read_json_data, open_text, read_bytes, log_name in *. run.
  simpl. rewrite Hlog, Hmode, Hdec. by rewrite (mapM_json_loads_ok _ _ Hlines).
Qed.

Lemma read_json_data_invalid w data mode text :
  fs w !! log_name = Some (File data mode) →
  readable mode = true →
  decode data = Some text →
  Exists (λ line, loads line = None) (readlines text) →
  read_json_data decode loads w = (Raise JSONDecodeError, w).
Proof.
  intros Hlog Hmode Hdec Hbad.
  unfold read_json_data, open_text, read_bytes, log_name in *. run.
  simpl. rewrite Hlog, Hmode, Hdec. by rewrite (mapM_json_loads_invalid _ Hbad).
Qed.

(** ** The selection of line 6 *)

Lemma list_getitem_minus_2 {A} (l : list A) :
  list_getitem l (-2) =
  match second_to_last l with
  | Some x => Ok x
  | None => Raise IndexError
  end.
Proof.
  unfold list_getitem, second_to_last.
  replace (Z.ltb (-2) 0) with true by done.
  case_decide as Hlen.
  - replace (Z.ltb (-2 + Z.of_nat (length l)) 0) with false by (symmetry; apply Z.ltb_ge; lia).
    replace (Z.leb (Z.of_nat (length l)) (-2 + Z.of_nat (length l))) with false
      by (symmetry; apply Z.leb_gt; lia).
    simpl. replace (Z.to_nat (-2 + Z.of_nat (length l))) with (length l - 2)%nat by lia.
    by destruct (l !! (length l - 2)%nat).
  - replace (Z.ltb (-2 + Z.of_nat (length l)) 0) with true by (symmetry; apply Z.ltb_lt; lia).
    done.
Qed.

Lemma second_to_last_short {A} (l : list A) :
  (length l < 2)%nat → second_to_last l = None.
Proof. intros H. unfold second_to_last. case_decide; [lia|done]. Qed.

Lemma second_to_last_app {A} (before : list A) (x y : A) :
  second_to_last (before ++ [x; y]) = Some x.
Proof.
  unfold second_to_last. rewrite length_app. simpl.
  case_decide; [|lia].
  replace (length before + 2 - 2)%nat with (length before + 0)%nat by lia.
  by rewrite lookup_app_r, Nat.add_0_r, Nat.sub_diag by lia.
Qed.

Lemma select_short records :
  (length records < 2)%nat → select records = Raise IndexError.
Proof.
  intros H. unfold select. rewrite list_getitem_minus_2.
  by rewrite second_to_last_short.
Qed.

Lemma select_first records d v rest :
  second_to_last records = Some (PDict d) →
  d !! "filenames" = Some (PList (v :: rest)) →
  select records = Ok v.
Proof.
  intros Hrec Hd. unfold select. rewrite list_getitem_minus_2, Hrec.
  simpl. by rewrite Hd.
Qed.

Lemma select_absent records d :
  second_to_last records = Some (PDict d) →
  d !! "filenames" = None →
  select records = Ok PNone.
Proof.
  intros Hrec Hd. unfold select. rewrite list_getitem_minus_2, Hrec.
  simpl. by rewrite Hd.
Qed.

Lemma select_null records d :
  second_to_last records = Some (PDict d) →
  d !! "filenames" = Some PNone →
  select records = Raise TypeError.
Proof.
  intros Hrec Hd. unfold select. rewrite list_getitem_minus_2, Hrec.
  simpl. by rewrite Hd.
Qed.

Lemma select_empty records d :
  second_to_last records = Some (PDict d) →
  d !! "filenames" = Some (PList []) →
  select records = Raise IndexError.
Proof.
  intros Hrec Hd. unfold select. rewrite list_getitem_minus_2, Hrec.
  simpl. by rewrite Hd.
Qed.

Lemma select_second_to_last records1 records2 :
  second_to_last records1 = second_to_last records2 →
  select records1 = select records2.
Proof.
  intros H. unfold select. by rewrite !list_getitem_minus_2, H.
Qed.

(** ** Lines 3-6 leave the world as it is *)

Lemma extract_run w :
  extract decode loads w =
  match read_json_data decode loads w with
  | (Ok json_data, w') =>
    match select json_data with
    | Ok test_binary_path => deliver test_binary_path w'
    | Raise e => (Raise e, w')
    end
  | (Raise e, w') => (Raise e, w')
  end.
Proof.
  unfold extract. rewrite bind_run.
  destruct (read_json_data decode loads w) as [[json_data|e] w']; [|done].
  rewrite bind_run, lift_run. by destruct (select json_data).
Qed.

Lemma extract_records w records :
  holds_records decode loads w records →
  extract decode loads w =
  match select records with
  | Ok test_binary_path => deliver test_binary_path w
  | Raise e => (Raise e, w)
  end.
Proof. intros H. by rewrite extract_run, (read_json_data_ok w records H). Qed.

Lemma deliver_falsy v w :
  truthy v = false → deliver v w = (Ok tt, printed diagnostic w).
Proof. intros H. unfold deliver. by rewrite H. Qed.

(** ** The directory and the copy *)

Lemma os_makedirs_target_test t out :
  os_makedirs "target/test" true (World t out) = makedirs_outcome t out.
Proof.
  unfold os_makedirs, makedirs_outcome, ensure_dir.
  cbn -[lookup insert]. run.
  unfold os_mkdir, os_path_exists, os_path_isdir, resolve_parent.
  destruct (t !! "target") as [[d|]|] eqn:Ht;
    destruct (t !! "target/test") as [[d'|]|] eqn:Htt;
    crunch Ht Htt; done.
Qed.

(** With nothing in the way, the directory is there afterwards and the rest
    of the file system is as before. *)
Lemma makedirs_outcome_writable t out :
  (∀ data mode, t !! "target" ≠ Some (File data mode)) →
  (∀ data mode, t !! "target/test" ≠ Some (File data mode)) →
  ∃ t', makedirs_outcome t out = (Ok tt, World t' out) ∧
        t' !! "target" = Some Dir ∧
        t' !! "target/test" = Some Dir ∧
        ∀ p, p ≠ "target" → p ≠ "target/test" → t' !! p = t !! p.
Proof.
  intros Ht Htt. unfold makedirs_outcome, ensure_dir.
  destruct (t !! "target") as [[d m|]|] eqn:E1; [by destruct (Ht d m)| |];
    destruct (t !! "target/test") as [[d' m'|]|] eqn:E2; try (by destruct (Htt d' m'));
    crunch E1 E2; eexists; (split; [reflexivity|]);
    repeat split; intros; by simplify_map_eq.
Qed.

Lemma node_at_ext t t' p : t' !! p = t !! p → node_at t' p = node_at t p.
Proof. intros H. unfold node_at. by rewrite H. Qed.

Lemma node_at_lookup t p :
  p ≠ EmptyString → all_sep p = false → node_at t p = t !! p.
Proof. intros Hp Hs. unfold node_at. destruct p; [done|]. by rewrite Hs. Qed.

Lemma samefile_false_ne t s p x :
  node_at t s = Some x → samefile t s p = false → s ≠ p.
Proof.
  intros Hs Hsame ->. unfold samefile, os_path_exists in Hsame.
  rewrite Hs in Hsame. simpl in Hsame. by rewrite bool_decide_eq_true_2 in Hsame.
Qed.

(** ** Opening a file for writing *)

Lemma write_check_ok t p :
  write_check t p = Ok tt →
  p ≠ EmptyString ∧ all_sep p = false ∧ resolve_parent t p = Ok tt ∧
  node_at t p ≠ Some Dir ∧
  (∀ data mode, node_at t p = Some (File data mode) → writable mode = true).
Proof.
  unfold write_check. destruct p as [|c r]; [done|].
  destruct (resolve_parent t (String c r)) as [[]|e]; [|done].
  destruct (node_at t (String c r)) as [[d m|]|] eqn:Hp; [| |].
  - destruct (writable m) eqn:Hm; [|done]. intros _. split_and!; try done.
    + revert Hp. unfold node_at. by destruct (all_sep (String c r)).
    + by intros ? ? [= _ <-].
  - done.
  - intros _. split_and!; try done.
    revert Hp. unfold node_at. by destruct (all_sep (String c r)).
Qed.

Lemma write_check_intro t p :
  p ≠ EmptyString →
  resolve_parent t p = Ok tt →
  node_at t p ≠ Some Dir →
  (∀ data mode, node_at t p = Some (File data mode) → writable mode = true) →
  write_check t p = Ok tt.
Proof.
  intros Hp Hres Hnd Hw. unfold write_check. destruct p as [|c r]; [done|].
  rewrite Hres. destruct (node_at t (String c r)) as [[d m|]|]; try done.
  by rewrite (Hw d m).
Qed.

Lemma write_bytes_run p data t out :
  write_bytes p data (World t out) =
  match write_check t p with
  | Ok _ => (Ok tt, World (<[p := File data (mode_after_open t p)]> t) out)
  | Raise e => (Raise e, World t out)
  end.
Proof. unfold write_bytes. simpl. by destruct (write_check t p). Qed.

(** ** The copy: the bytes, then the bits *)

Lemma shutil_copy_str s dst out (u : gmap string node) :
  shutil_copy (PStr s) dst (World u out) = copy_outcome u out s dst.
Proof.
  unfold shutil_copy, copy_outcome, shutil_copyfile.
  rewrite !bind_run. unfold gets at 1.
  cbn -[lookup insert samefile os_path_isdir node_at write_bytes os_path_join
        read_bytes shutil_copymode].
  rewrite !bind_run. unfold gets at 1.
  cbn -[lookup insert samefile os_path_isdir node_at write_bytes os_path_join
        read_bytes shutil_copymode].
  set (dst' := if os_path_isdir u dst then _ else _).
  destruct (samefile u s dst') eqn:Hsame; [done|].
  rewrite !bind_run. unfold read_bytes at 1. cbn [fs].
  destruct (node_at u s) as [[data mode|]|] eqn:Hs; [|done..].
  destruct (readable mode); [|done].
  rewrite write_bytes_run.
  destruct (write_check u dst') as [[]|e] eqn:Hwc; [|done].
  apply write_check_ok in Hwc as (Hne & Hsep & _ & _ & _).
  assert (s ≠ dst') as Hsd by (by eapply samefile_false_ne).
  rewrite bind_run. unfold shutil_copymode. cbn [fs stdout].
  rewrite (node_at_ext u _ s) by (by rewrite lookup_insert_ne).
  rewrite Hs, (node_at_lookup _ dst' Hne Hsep), lookup_insert_eq.
  by rewrite insert_insert_eq.
Qed.



(** ** Replacing the log

    What the statements of lines 7-13 do does not depend on what the log
    holds: two file systems that differ in the bytes of the log only are
    treated alike. *)

Lemma mode_after_open_insert_ne t p q x :
  p ≠ q → q ≠ EmptyString → all_sep q = false →
  mode_after_open (<[p := x]> t) q = mode_after_open t q.
Proof.
  intros Hne Hq Hs. unfold mode_after_open.
  by rewrite !(node_at_lookup _ q Hq Hs), lookup_insert_ne.
Qed.

Lemma relog_insert_ne data t p x :
  p ≠ log_name → relog data (<[p := x]> t) = <[p := x]> (relog data t).
Proof.
  intros Hne. unfold relog.
  rewrite mode_after_open_insert_ne by done. by rewrite insert_insert_ne.
Qed.

Lemma relog_insert t d1 m1 d2 :
  t !! log_name = Some (File d1 m1) → relog d2 t = <[log_name := File d2 m1]> t.
Proof.
  intros Hlog. unfold relog, mode_after_open.
  change (node_at t log_name) with (t !! log_name). by rewrite Hlog.
Qed.

Section ReplacedLog.
Variable t : gmap string node.
Variables d1 d2 : list Byte.byte.
Variable m1 : Z.
Hypothesis Hlog : t !! log_name = Some (File d1 m1).

Lemma relog_eq : relog d2 t = <[log_name := File d2 m1]> t.
Proof. by apply (relog_insert t d1). Qed.

Lemma kind_node_at_with_log p : kind_of (node_at (relog d2 t) p) = kind_of (node_at t p).
Proof.
  rewrite relog_eq. unfold node_at. destruct p as [|c r]; [done|].
  destruct (all_sep (String c r)); [done|].
  destruct (decide (String c r = log_name)) as [->|Hne].
  - by rewrite lookup_insert_eq, Hlog.
  - by rewrite lookup_insert_ne.
Qed.

Lemma node_at_with_log_ne p : p ≠ log_name → node_at (relog d2 t) p = node_at t p.
Proof. unfold relog. intros Hne. apply node_at_ext. by rewrite lookup_insert_ne. Qed.

Lemma os_path_exists_with_log p : os_path_exists (relog d2 t) p = os_path_exists t p.
Proof.
  unfold os_path_exists. pose proof (kind_node_at_with_log p) as H.
  by destruct (node_at (relog d2 t) p) as [[? ?|]|], (node_at t p) as [[? ?|]|].
Qed.

Lemma os_path_isdir_with_log p : os_path_isdir (relog d2 t) p = os_path_isdir t p.
Proof.
  unfold os_path_isdir. pose proof (kind_node_at_with_log p) as H.
  by destruct (node_at (relog d2 t) p) as [[? ?|]|], (node_at t p) as [[? ?|]|].
Qed.

Lemma samefile_with_log p q : samefile (relog d2 t) p q = samefile t p q.
Proof. unfold samefile. by rewrite !os_path_exists_with_log. Qed.

Lemma resolve_parent_with_log p : resolve_parent (relog d2 t) p = resolve_parent t p.
Proof.
  unfold resolve_parent. destruct (fst (os_path_split p)) as [|c r]; [done|].
  pose proof (kind_node_at_with_log (String c r)) as H.
  by destruct (node_at (relog d2 t) (String c r)) as [[? ?|]|],
              (node_at t (String c r)) as [[? ?|]|].
Qed.

Lemma write_check_with_log p : write_check (relog d2 t) p = write_check t p.
Proof.
  unfold write_check. destruct p as [|c r]; [done|].
  rewrite resolve_parent_with_log.
  destruct (resolve_parent t (String c r)); [|done].
  pose proof (kind_node_at_with_log (String c r)) as H.
  destruct (node_at (relog d2 t) (String c r)) as [[? ?|]|],
           (node_at t (String c r)) as [[? ?|]|]; try done.
  simpl in H. by simplify_eq.
Qed.

Lemma walk_with_log qs leaf : walk (relog d2 t) qs leaf = walk t qs leaf.
Proof.
  induction qs as [|q qs IH]; [done|]. simpl. rewrite IH.
  pose proof (kind_node_at_with_log q) as H.
  by destruct (node_at (relog d2 t) q) as [[? ?|]|], (node_at t q) as [[? ?|]|].
Qed.

Lemma missing_error_with_log p : missing_error (relog d2 t) p = missing_error t p.
Proof. unfold missing_error. by rewrite walk_with_log. Qed.

Lemma makedirs_outcome_with_log out :
  ∃ r t',
    makedirs_outcome t out = (r, World t' out) ∧
    makedirs_outcome (relog d2 t) out = (r, World (relog d2 t') out) ∧
    t' !! log_name = Some (File d1 m1).
Proof.
  cut (∃ r t',
         makedirs_outcome t out = (r, World t' out) ∧
         makedirs_outcome (<[log_name := File d2 m1]> t) out =
           (r, World (<[log_name := File d2 m1]> t') out) ∧
         t' !! log_name = Some (File d1 m1)).
  { intros (r & t' & H1 & H2 & H3). exists r, t'.
    by rewrite relog_eq, (relog_insert t' d1 m1 d2 H3). }
  unfold makedirs_outcome, ensure_dir, log_name in *.
  rewrite !(lookup_insert_ne t "latest_test.json") by done.
  destruct (t !! "target") as [[d m|]|] eqn:Ht;
    destruct (t !! "target/test") as [[d' m'|]|] eqn:Htt;
    crunch Ht Htt;
    rewrite ?(lookup_insert_ne t "latest_test.json"), ?Ht, ?Htt by done;
    crunch Ht Htt;
    rewrite ?(lookup_insert_ne t "latest_test.json"), ?Ht, ?Htt by done;
    eexists _, _; (split; [reflexivity|]);
    rewrite ?lookup_insert_ne by done; (split; [|done]);
    rewrite ?(insert_insert_ne _ "target" "latest_test.json"),
            ?(insert_insert_ne _ "target/test" "latest_test.json") by done; done.
Qed.

Lemma destination_join_not_log b :
  startswith_sep b = false → os_path_join destination b ≠ log_name.
Proof. unfold os_path_join. intros ->. by cbn. Qed.

Lemma copy_outcome_with_log out s :
  same_observation (copy_outcome t out s destination)
                   (copy_outcome (relog d2 t) out s destination) ∧
  (s ≠ log_name →
   up_to_log d2 (copy_outcome t out s destination)
                (copy_outcome (relog d2 t) out s destination)).
Proof.
  unfold copy_outcome. rewrite os_path_isdir_with_log.
  set (dst' := if os_path_isdir t destination then _ else _).
  assert (dst' ≠ log_name) as Hdst.
  { unfold dst'. destruct (os_path_isdir t destination); [|done].
    apply destination_join_not_log, basename_not_absolute. }
  rewrite samefile_with_log, write_check_with_log, missing_error_with_log.
  destruct (samefile t s dst'); [by unfold same_observation, up_to_log|].
  destruct (decide (s = log_name)) as [->|Hne].
  - assert (node_at t log_name = Some (File d1 m1)) as -> by done.
    assert (node_at (relog d2 t) log_name = Some (File d2 m1)) as ->
      by (rewrite relog_eq; unfold node_at, log_name; cbn -[lookup insert];
          by rewrite lookup_insert_eq).
    split; [|done]. unfold same_observation.
    by destruct (readable m1), (write_check t dst') as [[]|e].
  - rewrite (node_at_with_log_ne s Hne).
    unfold same_observation, up_to_log.
    destruct (node_at t s) as [[data mode|]|]; [|done..].
    destruct (readable mode); [|done].
    destruct (write_check t dst') as [[]|e]; [|done].
    simpl. split; [done|]. intros _. by rewrite relog_insert_ne.
Qed.

Lemma shutil_copy_with_log out v :
  same_observation (shutil_copy v destination (World t out))
                   (shutil_copy v destination (World (relog d2 t) out)) ∧
  (v ≠ PStr log_name →
   up_to_log d2 (shutil_copy v destination (World t out))
                (shutil_copy v destination (World (relog d2 t) out))).
Proof.
  destruct v as [|b|z|f|s|l|d]; try (by unfold same_observation, up_to_log).
  - unfold shutil_copy. rewrite !bind_run. unfold gets. cbn -[lookup insert os_path_isdir relog].
    rewrite os_path_isdir_with_log.
    by destruct (os_path_isdir t destination).
  - unfold shutil_copy. rewrite !bind_run. unfold gets. cbn -[lookup insert os_path_isdir relog].
    rewrite os_path_isdir_with_log.
    by destruct (os_path_isdir t destination).
  - rewrite !shutil_copy_str.
    destruct (copy_outcome_with_log out s) as [? Hfs]. split; [done|].
    intros Hne. apply Hfs. congruence.
Qed.
End ReplacedLog.

Lemma deliver_with_log t d1 m1 d2 out v :
  t !! log_name = Some (File d1 m1) →
  same_observation (deliver v (World t out)) (deliver v (World (relog d2 t) out)) ∧
  (v ≠ PStr log_name →
   up_to_log d2 (deliver v (World t out)) (deliver v (World (relog d2 t) out))).
Proof.
  intros Hlog. unfold deliver. destruct (truthy v); [|by unfold same_observation, up_to_log].
  cbn -[os_makedirs shutil_copy insert os_path_join relog].
  change (os_path_join "target/test" "latest_tests") with destination.
  rewrite !bind_run, !os_makedirs_target_test.
  destruct (makedirs_outcome_with_log t d1 d2 m1 Hlog out) as (r & t' & -> & -> & Hlog').
  rewrite !bind_run.
  destruct r as [[]|e]; [|by unfold same_observation, up_to_log].
  destruct (shutil_copy_with_log t' d1 d2 m1 Hlog' out v) as ([Hr' Ho'] & Hfs').
  unfold same_observation, up_to_log in *.
  destruct (shutil_copy v destination (World t' out)) as [[x1|e1] w1],
           (shutil_copy v destination (World (relog d2 t') out)) as [[x2|e2] w2];
    simpl in *; simplify_eq; done.
Qed.

(** ** The properties of the script *)


(** C2. When the ["filenames"] field of the record at index [length - 2]
    is null or an empty list, the script writes no file, as claimed, but
    prints no diagnostic either: the subscript [[0]] of line 6 raises
    ([TypeError] on null, [IndexError] on the empty list) and the script
    ends there, with the world as it was. *)
Theorem C2_null_or_empty_filenames_raise w records d :
  holds_records decode loads w records →
  second_to_last records = Some (PDict d) →
  (d !! "filenames" = Some PNone →
   extract decode loads w = (Raise TypeError, w)) ∧
  (d !! "filenames" = Some (PList []) →
   extract decode loads w = (Raise IndexError, w)).
Proof.
  intros Hlog Hrec. rewrite (extract_records w records Hlog). split; intros Hnames.
  - by rewrite (select_null records d Hrec Hnames).
  - by rewrite (select_empty records d Hrec Hnames).
Qed.

(** C3. When the record at index [length - 2] is an object without the
    ["filenames"] key, the script touches no file, prints the literal
    diagnostic and a line end to the standard output, raises nothing and
    ends with status 0. *)
Theorem C3_absent_key_prints_diagnostic w records d :
  holds_records decode loads w records →
  second_to_last records = Some (PDict d) →
  d !! "filenames" = None →
  extract decode loads w =
    (Ok tt, World (fs w) (stdout w +:+ "An error has occured. Wrong json format!"
                                   +:+ String newline EmptyString)) ∧
  exit_code (fst (extract decode loads w)) = 0.
Proof.
  intros Hlog Hrec Hnames.
  by rewrite (extract_records w records Hlog), (select_absent records d Hrec Hnames).
Qed.

(** C4. When the log holds fewer than two lines, all of them well-formed,
    the script ends with an uncaught [IndexError]: status 1, the file
    system as it was (no destination file is made) and nothing printed. *)
Theorem C4_short_log_index_fault w records :
  holds_records decode loads w records →
  (length records < 2)%nat →
  extract decode loads w = (Raise IndexError, w) ∧
  exit_code (fst (extract decode loads w)) = 1.
Proof.
  intros Hlog Hlen.
  by rewrite (extract_records w records Hlog), (select_short records Hlen).
Qed.

(** C5. When some line of the log, a file that can be read and decoded,
    is not valid JSON, whichever line it is, the script ends with an uncaught [JSONDecodeError]: status 1, the file
    system as it was and nothing printed.  All the lines are decoded before
    one is selected. *)
Theorem C5_invalid_line_parse_fault w data mode text line :
  fs w !! log_name = Some (File data mode) →
  readable mode = true →
  decode data = Some text →
  line ∈ readlines text →
  loads line = None →
  extract decode loads w = (Raise JSONDecodeError, w) ∧
  exit_code (fst (extract decode loads w)) = 1.
Proof.
  intros Hlog Hmode Hdec Hin Hbad.
  assert (Exists (λ l, loads l = None) (readlines text)) as Hex
    by (apply Exists_exists; eauto).
  by rewrite extract_run, (read_json_data_invalid w data mode text Hlog Hmode Hdec Hex).
Qed.

(** C6. Two logs of valid JSON lines with the same number of records and
    the same record at index [length - 2] make the script behave alike: the
    same candidate is selected, hence the same source copied or the same
    diagnostic printed, with the same result and the same output; and
    unless the candidate is the log itself, the file systems after the two
    runs differ in the bytes of the log only. *)
Theorem C6_only_second_to_last_matters w data2 records1 records2 :
  holds_records decode loads w records1 →
  holds_records decode loads (with_log data2 w) records2 →
  length records1 = length records2 →
  second_to_last records1 = second_to_last records2 →
  select records1 = select records2 ∧
  fst (extract decode loads (with_log data2 w)) = fst (extract decode loads w) ∧
  stdout (snd (extract decode loads (with_log data2 w))) =
    stdout (snd (extract decode loads w)) ∧
  (select records1 ≠ Ok (PStr log_name) →
   fs (snd (extract decode loads (with_log data2 w))) =
     relog data2 (fs (snd (extract decode loads w)))).
Proof.
  intros H1 H2 _ Hsel.
  pose proof (select_second_to_last _ _ Hsel) as Hs.
  rewrite (extract_records w records1 H1),
          (extract_records (with_log data2 w) records2 H2), <- Hs.
  split; [done|].
  destruct (select records1) as [v|e]; [|done].
  destruct H1 as (data & mode & _ & Hlog & _). destruct w as [t out].
  unfold with_log. simpl in *.
  destruct (deliver_with_log t data mode data2 out v Hlog) as ([Hr Ho] & Hfs).
  split_and!; [done|done|]. intros Hv. apply Hfs. congruence.
Qed.


(** With the directories in place, [os.makedirs] is a no-op. *)
Lemma os_makedirs_present w :
  fs w !! "target" = Some Dir →
  fs w !! "target/test" = Some Dir →
  os_makedirs "target/test" true w = (Ok tt, w).
Proof.
  destruct w as [t out]. simpl. intros Ht Htt.
  rewrite os_makedirs_target_test. unfold makedirs_outcome, ensure_dir.
  by crunch Ht Htt.
Qed.

(** C8. [os.makedirs('target/test', exist_ok=True)], the first statement of
    the copy branch: a directory that is there already never makes it fail;
    it succeeds, with [target] and [target/test] directories afterwards,
    whenever no regular file stands at one of the two paths; when both
    directories are there the world is left as it is, and the copy branch
    comes to the copy alone; and a second call after a successful one
    succeeds and changes nothing. *)
Theorem C8_makedirs_idempotent w :
  (fs w !! "target/test" = Some Dir →
   fst (os_makedirs "target/test" true w) = Ok tt) ∧
  ((∀ data mode, fs w !! "target" ≠ Some (File data mode)) →
   (∀ data mode, fs w !! "target/test" ≠ Some (File data mode)) →
   fst (os_makedirs "target/test" true w) = Ok tt ∧
   fs (snd (os_makedirs "target/test" true w)) !! "target" = Some Dir ∧
   fs (snd (os_makedirs "target/test" true w)) !! "target/test" = Some Dir) ∧
  (fs w !! "target" = Some Dir → fs w !! "target/test" = Some Dir →
   os_makedirs "target/test" true w = (Ok tt, w) ∧
   ∀ v, truthy v = true →
        deliver v w = (shutil_copy v "target/test/latest_tests" ≫= λ _, mret tt) w) ∧
  (∀ w', os_makedirs "target/test" true w = (Ok tt, w') →
         os_makedirs "target/test" true w' = (Ok tt, w')).
Proof.
  split_and!.
  - destruct w as [t out]. rewrite os_makedirs_target_test. simpl.
    intros Htt. unfold makedirs_outcome, ensure_dir.
    destruct (t !! "target") as [[d|]|] eqn:Ht; crunch Ht Htt; done.
  - destruct w as [t out]. rewrite os_makedirs_target_test. simpl.
    intros Ht Htt.
    by destruct (makedirs_outcome_writable t out Ht Htt) as (t' & -> & ? & ? & _).
  - intros Ht Htt. split; [by apply os_makedirs_present|].
    intros v Hv. unfold deliver. rewrite Hv.
    cbn -[os_makedirs shutil_copy].
    by rewrite bind_run, (os_makedirs_present w Ht Htt).
  - destruct w as [t out]. rewrite os_makedirs_target_test.
    intros [t' out'] H. rewrite os_makedirs_target_test.
    revert H. unfold makedirs_outcome, ensure_dir.
    destruct (t !! "target") as [[d|]|] eqn:Ht;
      destruct (t !! "target/test") as [[d'|]|] eqn:Htt;
      crunch Ht Htt; intros [= <- <-]; crunch Ht Htt; done.
Qed.

(** C9. When the first element of the ["filenames"] list is the empty
    string, the script takes the diagnostic branch: it prints the
    diagnostic, makes no directory and copies nothing; the candidate is
    tested for its truth value, and the empty string is false. *)
Theorem C9_empty_string_takes_diagnostic_branch w records d rest :
  holds_records decode loads w records →
  second_to_last records = Some (PDict d) →
  d !! "filenames" = Some (PList (PStr EmptyString :: rest)) →
  truthy (PStr EmptyString) = false ∧
  extract decode loads w =
    (Ok tt, World (fs w) (stdout w +:+ "An error has occured. Wrong json format!"
                                   +:+ String newline EmptyString)).
Proof.
  intros Hlog Hrec Hnames. split; [done|].
  by rewrite (extract_records w records Hlog), (select_first records d _ rest Hrec Hnames).
Qed.

(** C10. When opening or reading the log fails (it is not there, it is a
    directory, it may not be read, its bytes cannot be decoded), the script
    ends with that exception and the world is as it was: [target/test] is not made and no
    destination file is written. *)
Theorem C10_unreadable_log_changes_nothing w e :
  fst (open_text decode "latest_test.json" w) = Raise e →
  extract decode loads w = (Raise e, w).
Proof.
  intros Hopen. rewrite extract_run. unfold read_json_data. rewrite bind_run.
  revert Hopen. unfold open_text, read_bytes. rewrite bind_run.
  destruct (node_at (fs w) "latest_test.json") as [[data mode|]|]; simpl;
    try (by intros [= ->]).
  destruct (readable mode); simpl; [|by intros [= ->]].
  destruct (decode data); simpl; [done|]. by intros [= ->].
Qed.

End Properties.

(** ** The script at work

    The properties, at the sample worlds, with the ASCII codec and the
    decoder of the JSON fragment. *)

(** The library calls, on examples. *)

Example readlines_universal :
  readlines ("a" +:+ String creturn (String newline ("b" +:+ String creturn ("c" +:+ String newline "d")))) =
  ["a" +:+ String newline EmptyString; "b" +:+ String newline EmptyString;
   "c" +:+ String newline EmptyString; "d"].
Proof. reflexivity. Qed.

Example readlines_blank_line :
  readlines ("a" +:+ String newline (String newline EmptyString)) =
  ["a" +:+ String newline EmptyString; String newline EmptyString].
Proof. reflexivity. Qed.

Example os_path_split_examples :
  os_path_split "target/test" = ("target", "test") ∧
  os_path_split "/tmp" = ("/", "tmp") ∧
  os_path_split "a//" = ("a", EmptyString) ∧
  os_path_split "a" = (EmptyString, "a") ∧
  os_path_split "a/b//c" = ("a/b", "c").
Proof. by split_and!. Qed.

Example os_path_join_examples :
  os_path_join "target/test" "latest_tests" = "target/test/latest_tests" ∧
  os_path_join "a/" "b" = "a/b" ∧
  os_path_join "a" "/b" = "/b" ∧
  os_path_join EmptyString "b" = "b".
Proof. by split_and!. Qed.

Example loads_basic_examples :
  loads_basic (artifact_line ["/tmp/a"]) = Some (names_record ["/tmp/a"]) ∧
  loads_basic finished_line = Some finished_record ∧
  loads_basic null_line = Some null_record ∧
  loads_basic " [1, -20, true, null, {}, [ ] ] " =
    Some (PList [PInt 1; PInt (-20); PBool true; PNone; PDict ∅; PList []]) ∧
  loads_basic "01" = None ∧
  loads_basic "[1,]" = None ∧
  loads_basic "{oops" = None ∧
  loads_basic (String newline EmptyString) = None.
Proof. vm_compute. by split_and!. Qed.

Example select_examples :
  select [names_record ["/tmp/a"]; names_record ["/tmp/b"; "/tmp/c"]] = Ok (PStr "/tmp/a") ∧
  select [finished_record; finished_record] = Ok PNone ∧
  select [names_record []; finished_record] = Raise IndexError ∧
  select [null_record; finished_record] = Raise TypeError ∧
  select [PList []; finished_record] = Raise AttributeError ∧
  select [PDict {["filenames" := PStr "abc"]}; finished_record] = Ok (PStr "a") ∧
  select [PDict {["filenames" := PDict ∅]}; finished_record] = Raise KeyError ∧
  select [names_record ["/tmp/a"]] = Raise IndexError.
Proof. vm_compute. by split_and!. Qed.

(** [holds_records], by running the decoder over the lines. *)
Lemma holds_records_run decode loads w data mode text records :
  fs w !! log_name = Some (File data mode) →
  readable mode = true →
  decode data = Some text →
  mapM loads (readlines text) = Some records →
  holds_records decode loads w records.
Proof. intros ? ? ? ?%mapM_Some. by exists data, mode, text. Qed.

Ltac sample_records lines :=
  apply (holds_records_run _ _ _ (log_of lines) mode_text (text_of lines));
  vm_compute; reflexivity.

(** Why the destination has to be writable.  With a directory at
    [target/test/latest_tests] the copy goes into it, under the base name
    of the source, and the script ends normally; with a regular file at
    [target] the directory cannot be made, and nothing is copied. *)
Example copy_into_directory :
  fst (extract decode_ascii loads_basic world_dir_at_destination) = Ok tt ∧
  fs (snd (extract decode_ascii loads_basic world_dir_at_destination))
    !! "target/test/latest_tests" = Some Dir ∧
  fs (snd (extract decode_ascii loads_basic world_dir_at_destination))
    !! "target/test/latest_tests/a" = Some (File bytes_a mode_binary).
Proof. vm_compute. by split_and!. Qed.

Example file_at_target :
  extract decode_ascii loads_basic world_file_at_target =
  (Raise NotADirectoryError, world_file_at_target).
Proof. vm_compute. reflexivity. Qed.

(** A file at the destination that its owner may not write stays as it
    is: the copy ends with [PermissionError]. *)
Example locked_destination :
  extract decode_ascii loads_basic world_locked_destination =
  (Raise PermissionError, world_locked_destination).
Proof. vm_compute. reflexivity. Qed.

(** The copy hands on the permission bits: the destination of a source
    that its owner may not write may not be written either. *)
Example copy_of_read_only_source :
  fst (extract decode_ascii loads_basic world_read_only) = Ok tt ∧
  fs (snd (extract decode_ascii loads_basic world_read_only)) !! destination =
    Some (File bytes_a mode_read_only) ∧
  writable mode_read_only = false.
Proof. vm_compute. by split_and!. Qed.

(** What the copy raises for a source that names nothing: a path under a
    regular file, a path with a NUL, a name that is too long, a name that
    is not there. *)
Example missing_source_errors :
  fst (extract decode_ascii loads_basic world_under_file) = Raise NotADirectoryError ∧
  fst (deliver (PStr path_with_nul) world_ab) = Raise ValueError ∧
  fst (extract decode_ascii loads_basic world_long_name) = Raise OSError ∧
  fst (extract decode_ascii loads_basic world_missing) = Raise FileNotFoundError ∧
  missing_error (fs world_ab) ("/none/" +:+ long_name) = FileNotFoundError ∧
  missing_error (fs world_ab) ("/tmp/" +:+ long_name) = OSError.
Proof. vm_compute. by split_and!. Qed.




Lemma C2_null_or_empty_filenames_raise_witness :
  extract decode_ascii loads_basic world_null = (Raise TypeError, world_null) ∧
  extract decode_ascii loads_basic world_empty = (Raise IndexError, world_empty).
Proof.
  split.
  - apply (C2_null_or_empty_filenames_raise decode_ascii loads_basic world_null
             [null_record; finished_record] {["filenames" := PNone]}).
    + sample_records [null_line; finished_line].
    + reflexivity.
    + reflexivity.
  - apply (C2_null_or_empty_filenames_raise decode_ascii loads_basic world_empty
             [names_record []; finished_record] {["filenames" := PList []]}).
    + sample_records [artifact_line []; finished_line].
    + reflexivity.
    + reflexivity.
Defined.

Lemma C3_absent_key_prints_diagnostic_witness :
  extract decode_ascii loads_basic world_absent =
    (Ok tt, World (fs world_absent)
                  (stdout world_absent +:+ "An error has occured. Wrong json format!"
                                       +:+ String newline EmptyString)) ∧
  exit_code (fst (extract decode_ascii loads_basic world_absent)) = 0.
Proof.
  apply (C3_absent_key_prints_diagnostic decode_ascii loads_basic world_absent
           [finished_record; finished_record]
           (<["reason" := PStr "build-finished"]> {["success" := PBool true]})).
  - sample_records [finished_line; finished_line].
  - reflexivity.
  - reflexivity.
Defined.

Lemma C4_short_log_index_fault_witness :
  extract decode_ascii loads_basic world_single = (Raise IndexError, world_single) ∧
  exit_code (fst (extract decode_ascii loads_basic world_single)) = 1.
Proof.
  apply (C4_short_log_index_fault decode_ascii loads_basic world_single
           [names_record ["/tmp/a"]]).
  - sample_records [artifact_line ["/tmp/a"]].
  - simpl. lia.
Defined.

Lemma C5_invalid_line_parse_fault_witness :
  extract decode_ascii loads_basic world_broken = (Raise JSONDecodeError, world_broken) ∧
  exit_code (fst (extract decode_ascii loads_basic world_broken)) = 1.
Proof.
  apply (C5_invalid_line_parse_fault decode_ascii loads_basic world_broken
           (log_of [artifact_line ["/tmp/a"]; "{oops"; finished_line]) mode_text
           (text_of [artifact_line ["/tmp/a"]; "{oops"; finished_line])
           ("{oops" +:+ String newline EmptyString)).
  - vm_compute. reflexivity.
  - reflexivity.
  - vm_compute. reflexivity.
  - vm_compute. apply list_elem_of_further, list_elem_of_here.
  - vm_compute. reflexivity.
Defined.

Lemma C6_only_second_to_last_matters_witness :
  select [names_record ["/tmp/a"]; names_record ["/tmp/b"; "/tmp/c"]] =
    select [names_record ["/tmp/a"]; finished_record] ∧
  fst (extract decode_ascii loads_basic (with_log log_a_finished world_ab)) =
    fst (extract decode_ascii loads_basic world_ab) ∧
  stdout (snd (extract decode_ascii loads_basic (with_log log_a_finished world_ab))) =
    stdout (snd (extract decode_ascii loads_basic world_ab)) ∧
  (select [names_record ["/tmp/a"]; names_record ["/tmp/b"; "/tmp/c"]] ≠ Ok (PStr log_name) →
   fs (snd (extract decode_ascii loads_basic (with_log log_a_finished world_ab))) =
     relog log_a_finished (fs (snd (extract decode_ascii loads_basic world_ab)))).
Proof.
  apply (C6_only_second_to_last_matters decode_ascii loads_basic world_ab log_a_finished
           [names_record ["/tmp/a"]; names_record ["/tmp/b"; "/tmp/c"]]
           [names_record ["/tmp/a"]; finished_record]).
  - sample_records [artifact_line ["/tmp/a"]; artifact_line ["/tmp/b"; "/tmp/c"]].
  - sample_records [artifact_line ["/tmp/a"]; finished_line].
  - reflexivity.
  - reflexivity.
Defined.



Lemma C8_makedirs_idempotent_witness :
  fst (os_makedirs "target/test" true world_built) = Ok tt ∧
  os_makedirs "target/test" true world_built = (Ok tt, world_built) ∧
  fst (os_makedirs "target/test" true world_ab) = Ok tt ∧
  os_makedirs "target/test" true (snd (os_makedirs "target/test" true world_ab)) =
    (Ok tt, snd (os_makedirs "target/test" true world_ab)).
Proof.
  destruct (C8_makedirs_idempotent world_built) as (Hthere & _ & Hsame & _).
  destruct (C8_makedirs_idempotent world_ab) as (_ & Hmake & _ & Hagain).
  split_and!.
  - apply Hthere. reflexivity.
  - apply Hsame; reflexivity.
  - apply Hmake; intros data mode; vm_compute; discriminate.
  - apply Hagain. vm_compute. reflexivity.
Defined.

Lemma C9_empty_string_takes_diagnostic_branch_witness :
  truthy (PStr EmptyString) = false ∧
  extract decode_ascii loads_basic world_blank =
    (Ok tt, World (fs world_blank)
                  (stdout world_blank +:+ "An error has occured. Wrong json format!"
                                      +:+ String newline EmptyString)).
Proof.
  apply (C9_empty_string_takes_diagnostic_branch decode_ascii loads_basic world_blank
           [names_record [""; "/tmp/a"]; finished_record]
           {["filenames" := PList [PStr ""; PStr "/tmp/a"]]} [PStr "/tmp/a"]).
  - sample_records [artifact_line [""; "/tmp/a"]; finished_line].
  - reflexivity.
  - reflexivity.
Defined.

Lemma C10_unreadable_log_changes_nothing_witness :
  extract decode_ascii loads_basic world_nolog = (Raise FileNotFoundError, world_nolog).
Proof.
  apply (C10_unreadable_log_changes_nothing decode_ascii loads_basic world_nolog).
  reflexivity.
Defined.

(** ** Further properties of the script *)

Section Further.
Variable decode : list Byte.byte → option string.
Variable loads : string → option pyval.

Lemma ensure_dir_lookup p t q :
  ensure_dir p t !! q =
  match t !! q with
  | Some x => Some x
  | None => if decide (q = p) then Some Dir else None
  end.
Proof.
  unfold ensure_dir. destruct (t !! p) as [x|] eqn:Hp.
  - destruct (t !! q) eqn:Hq; [done|]. case_decide; [congruence|done].
  - destruct (decide (q = p)) as [->|Hne].
    + by rewrite lookup_insert_eq, Hp.
    + rewrite lookup_insert_ne by done. by destruct (t !! q).
Qed.

Lemma makedirs_outcome_shape t out :
  ∃ r t', makedirs_outcome t out = (r, World t' out) ∧
    match r with
    | Ok _ => t' = with_directories t ∧ t' !! "target/test" = Some Dir
    | Raise e => (t' = t ∨ t' = ensure_dir "target" t) ∧ t' = ensure_dir "target" t'
                 ∧ makedirs_outcome t' out = (Raise e, World t' out)
    end.
Proof.
  unfold makedirs_outcome, with_directories, ensure_dir.
  destruct (t !! "target") as [[d|]|] eqn:Ht;
    destruct (t !! "target/test") as [[d'|]|] eqn:Htt;
    crunch Ht Htt; eexists _, _; (split; [reflexivity|]); crunch Ht Htt; auto.
Qed.

Lemma shutil_copy_shape v t out :
  (∃ e, shutil_copy v destination (World t out) = (Raise e, World t out)) ∨
  (∃ s data mode,
     v = PStr s ∧
     node_at t s = Some (File data mode) ∧
     readable mode = true ∧
     samefile t s (written_path t s) = false ∧
     write_check t (written_path t s) = Ok tt ∧
     shutil_copy v destination (World t out) =
       (Ok (written_path t s), World (<[written_path t s := File data mode]> t) out)).
Proof.
  destruct v as [|b|z|f|s|l|d]; try (left; by eexists).
  - left. unfold shutil_copy. rewrite bind_run. unfold gets. cbn -[os_path_isdir].
    destruct (os_path_isdir t destination); by eexists.
  - left. unfold shutil_copy. rewrite bind_run. unfold gets. cbn -[os_path_isdir].
    destruct (os_path_isdir t destination); by eexists.
  - rewrite shutil_copy_str. unfold copy_outcome. fold (written_path t s).
    destruct (samefile t s (written_path t s)) eqn:Hsame; [left; by eexists|].
    destruct (node_at t s) as [[data mode|]|] eqn:Hs; [|left; by eexists..].
    destruct (readable mode) eqn:Hread; [|left; by eexists].
    destruct (write_check t (written_path t s)) as [[]|e] eqn:Hwc; [|left; by eexists].
    right. by exists s, data, mode.
Qed.

Lemma deliver_run v t out :
  deliver v (World t out) =
  if truthy v then
    match makedirs_outcome t out with
    | (Ok _, w1) =>
      match shutil_copy v destination w1 with
      | (Ok _, w2) => (Ok tt, w2)
      | (Raise e, w2) => (Raise e, w2)
      end
    | (Raise e, w1) => (Raise e, w1)
    end
  else (Ok tt, printed diagnostic (World t out)).
Proof.
  unfold deliver. destruct (truthy v); [|done].
  cbn -[os_makedirs shutil_copy].
  change ("target/test" +:+ "/" +:+ "latest_tests") with destination.
  rewrite bind_run, os_makedirs_target_test.
  destruct (makedirs_outcome t out) as [[[]|e] w1]; [|done].
  rewrite bind_run. by destruct (shutil_copy v destination w1) as [[p|e] w2].
Qed.

Lemma read_json_data_world w :
  snd (read_json_data decode loads w) = w.
Proof.
  unfold read_json_data, open_text, read_bytes. rewrite !bind_run.
  destruct (node_at (fs w) "latest_test.json") as [[data mode|]|]; try done.
  destruct (readable mode); [|done].
  cbn. by destruct (decode data).
Qed.

Lemma mapM_json_loads_Ok lines records :
  mapM (json_loads loads) lines = Ok records →
  Forall2 (λ line v, loads line = Some v) lines records.
Proof.
  revert records. induction lines as [|line lines IH]; intros records; simpl.
  - intros [= <-]. constructor.
  - destruct (json_loads loads line) as [v|e] eqn:Hv; [|done]. simpl.
    destruct (mapM (json_loads loads) lines) as [vs|]; [|done]. simpl.
    intros [= <-]. constructor; [|by apply IH].
    unfold json_loads in Hv. destruct (loads line); congruence.
Qed.

Lemma read_json_data_holds w records w' :
  read_json_data decode loads w = (Ok records, w') →
  holds_records decode loads w records.
Proof.
  unfold read_json_data, open_text, read_bytes. rewrite !bind_run.
  change (node_at (fs w) "latest_test.json") with (fs w !! log_name).
  destruct (fs w !! log_name) as [[data mode|]|] eqn:Hlog; try done.
  destruct (readable mode) eqn:Hmode; [|done].
  cbn. destruct (decode data) as [text|] eqn:Hdec; [|done]. cbn.
  intros [= H _]. exists data, mode, text. split_and!; try done.
  by apply mapM_json_loads_Ok.
Qed.

Lemma with_directories_lookup t p :
  with_directories t !! p =
  match t !! p with
  | Some x => Some x
  | None => if decide (p = "target" ∨ p = "target/test") then Some Dir else None
  end.
Proof.
  unfold with_directories. rewrite !ensure_dir_lookup.
  destruct (t !! p); [done|]. repeat case_decide; try done; by intuition.
Qed.

Lemma os_path_join_destination b :
  startswith_sep b = false →
  os_path_join destination b = "target/test/latest_tests/" +:+ b.
Proof. unfold os_path_join. by intros ->. Qed.

(** The written path lies at the destination or under it. *)
Lemma written_path_cases t s :
  written_path t s = destination ∨
  ∃ b, written_path t s = "target/test/latest_tests/" +:+ b.
Proof.
  unfold written_path. destruct (os_path_isdir t destination); [right|by left].
  eexists. apply os_path_join_destination, basename_not_absolute.
Qed.

Lemma node_at_written_path t t' s :
  node_at t (written_path t' s) = t !! written_path t' s.
Proof. by destruct (written_path_cases t' s) as [->|[b ->]]. Qed.

Lemma written_path_with_directories t s :
  written_path (with_directories t) s = written_path t s.
Proof.
  unfold written_path, os_path_isdir.
  change (node_at (with_directories t) destination) with (with_directories t !! destination).
  change (node_at t destination) with (t !! destination).
  rewrite with_directories_lookup. destruct (t !! destination); [done|].
  rewrite decide_False; [done|]. unfold destination. by intros [?|?].
Qed.

Lemma extract_ends w :
  ends decode loads w (fst (extract decode loads w)) (snd (extract decode loads w)).
Proof.
  rewrite extract_run.
  pose proof (read_json_data_world w) as Hw.
  destruct (read_json_data decode loads w) as [[records|e] w0] eqn:Hread;
    simpl in Hw; subst w0; [|by constructor].
  destruct (select records) as [v|e] eqn:Hsel; [|by constructor].
  destruct w as [t out]. rewrite deliver_run.
  destruct (truthy v); [|by constructor].
  destruct (makedirs_outcome_shape t out) as (r & t1 & -> & Hshape).
  destruct r as [[]|e]; simpl.
  - destruct Hshape as [-> _].
    destruct (shutil_copy_shape v (with_directories t) out)
      as [[e ->]|(s & data & mode & -> & Hs & _ & Hsame & Hwc & ->)]; simpl.
    + apply (ends_no_copy decode loads (World t out)).
    + apply write_check_ok in Hwc as (_ & _ & _ & Hnd & _).
      apply (ends_copied decode loads (World t out) records s data mode); try done.
      * by eapply read_json_data_holds.
      * by eapply samefile_false_ne.
      * by rewrite <- (node_at_written_path _ (with_directories t) s).
  - destruct Hshape as (Ht1 & _). by apply (ends_no_directory decode loads (World t out)).
Qed.

Lemma written_path_outside t s p :
  p ≠ destination →
  inside_destination p = false →
  written_path t s ≠ p.
Proof.
  intros Hd Hp Heq. destruct (written_path_cases t s) as [H|[b H]];
    rewrite H in Heq; subst p; [done|]. by vm_compute in Hp.
Qed.

(** Paths the script never writes. *)
Lemma extract_unchanged_outside w p :
  p ≠ "target" →
  p ≠ "target/test" →
  p ≠ "target/test/latest_tests" →
  inside_destination p = false →
  fs (snd (extract decode loads w)) !! p = fs w !! p.
Proof.
  intros N1 N2 N3 Hp.
  assert (∀ t, with_directories t !! p = t !! p) as Hwd.
  { intros t. rewrite with_directories_lookup. destruct (t !! p); [done|].
    rewrite decide_False; [done|]. by intros [?|?]. }
  destruct (extract_ends w) as [e| |e t' [->| ->]|e|records s data mode _ _ _ _ _];
    simpl; try done.
  - rewrite ensure_dir_lookup. destruct (fs w !! p); [done|]. by rewrite decide_False.
  - rewrite lookup_insert_ne by (by apply written_path_outside). apply Hwd.
Qed.

(** X1. Whatever the log holds and however the run ends, the script
    changes nothing outside [target], [target/test],
    [target/test/latest_tests] and the entries of the latter: every other
    path holds after the run what it held before.  The log and the
    binaries it names are among them. *)
Theorem extract_frame w p :
  p ≠ "target" →
  p ≠ "target/test" →
  p ≠ "target/test/latest_tests" →
  inside_destination p = false →
  fs (snd (extract decode loads w)) !! p = fs w !! p.
Proof. apply extract_unchanged_outside. Qed.

(** X2. The script removes nothing and never changes the kind of what is
    there: after the run a directory is still a directory and a regular
    file is still a regular file, at every path. *)
Theorem extract_keeps_nodes w p :
  (fs w !! p = Some Dir → fs (snd (extract decode loads w)) !! p = Some Dir) ∧
  (∀ data mode, fs w !! p = Some (File data mode) →
                ∃ data' mode', fs (snd (extract decode loads w)) !! p = Some (File data' mode')).
Proof.
  assert (∀ t q x, t !! q = Some x → ensure_dir "target" t !! q = Some x) as Hen
    by (intros t q x H; by rewrite ensure_dir_lookup, H).
  assert (∀ t q x, t !! q = Some x → with_directories t !! q = Some x) as Hwd
    by (intros t q x H; by rewrite with_directories_lookup, H).
  destruct (extract_ends w) as [e| |e t' [->| ->]|e|records s data mode _ _ _ _ Hnd]; simpl;
    try (split; [by eauto|intros data' mode' H; by eauto]).
  destruct (decide (written_path (with_directories (fs w)) s = p)) as [<-|Hne].
  - rewrite lookup_insert_eq. split.
    + intros H%Hwd. congruence.
    + eauto.
  - rewrite lookup_insert_ne by done. split; [by eauto|intros data' mode' H; by eauto].
Qed.

(** X3. The script prints nothing, or exactly the diagnostic and a line
    end; and when it prints, it ends normally and the file system is as it
    was. *)
Theorem extract_output w :
  stdout (snd (extract decode loads w)) = stdout w ∨
  (fst (extract decode loads w) = Ok tt ∧
   fs (snd (extract decode loads w)) = fs w ∧
   stdout (snd (extract decode loads w)) =
     stdout w +:+ "An error has occured. Wrong json format!" +:+ String newline EmptyString).
Proof.
  destruct (extract_ends w); simpl; auto.
Qed.

Lemma node_at_with_directories_file t s data mode :
  node_at (with_directories t) s = Some (File data mode) →
  node_at t s = Some (File data mode).
Proof.
  unfold node_at. destruct s as [|c r]; [done|].
  destruct (all_sep (String c r)); [done|].
  rewrite with_directories_lookup.
  destruct (t !! String c r) as [x|]; [done|]. by case_decide.
Qed.

(** X4. A run that ends normally, on a candidate that is not a number,
    either printed the diagnostic, the candidate being false, or wrote the
    bytes of the candidate, a string that names a regular file, with the
    permission bits of that file: at the destination, or under it when the
    destination is a directory; and then nothing was printed. *)
Theorem extract_normal_exit w records v :
  holds_records decode loads w records →
  select records = Ok v →
  is_descriptor v = false →
  fst (extract decode loads w) = Ok tt →
  (truthy v = false ∧ snd (extract decode loads w) = printed diagnostic w) ∨
  ∃ s data mode,
    v = PStr s ∧
    node_at (fs w) s = Some (File data mode) ∧
    fs (snd (extract decode loads w)) !! written_path (fs w) s = Some (File data mode) ∧
    stdout (snd (extract decode loads w)) = stdout w.
Proof.
  intros Hlog Hsel _.
  rewrite (extract_records decode loads w records Hlog), Hsel.
  destruct w as [t out]. rewrite deliver_run.
  destruct (truthy v); [|by left].
  destruct (makedirs_outcome_shape t out) as (r & t1 & -> & Hshape).
  destruct r as [[]|e]; [|done]. destruct Hshape as [-> _].
  destruct (shutil_copy_shape v (with_directories t) out)
    as [[e ->]|(s & data & mode & -> & Hs & _ & _ & _ & ->)]; [done|].
  simpl. intros _. right. exists s, data, mode.
  rewrite written_path_with_directories, lookup_insert_eq.
  split_and!; try done. by apply node_at_with_directories_file.
Qed.

Lemma makedirs_outcome_ok t out :
  (∀ data mode, t !! "target" ≠ Some (File data mode)) →
  (∀ data mode, t !! "target/test" ≠ Some (File data mode)) →
  makedirs_outcome t out = (Ok tt, World (with_directories t) out).
Proof.
  intros Ht Htt. unfold makedirs_outcome, with_directories, ensure_dir.
  destruct (t !! "target") as [[d m|]|] eqn:E1; [by destruct (Ht d m)| |];
    destruct (t !! "target/test") as [[d' m'|]|] eqn:E2; try (by destruct (Htt d' m'));
    by crunch E1 E2.
Qed.

Lemma node_at_with_directories_present t p x :
  node_at t p = Some x → node_at (with_directories t) p = Some x.
Proof.
  unfold node_at. destruct p as [|c r]; [done|].
  destruct (all_sep (String c r)); [done|].
  rewrite with_directories_lookup. by intros ->.
Qed.


(** The copy branch, once the directories could be made. *)
Lemma deliver_after_makedirs v t out :
  truthy v = true →
  (∀ data mode, t !! "target" ≠ Some (File data mode)) →
  (∀ data mode, t !! "target/test" ≠ Some (File data mode)) →
  deliver v (World t out) =
  match shutil_copy v destination (World (with_directories t) out) with
  | (Ok _, w2) => (Ok tt, w2)
  | (Raise e, w2) => (Raise e, w2)
  end.
Proof.
  intros Hv Ht Htt. by rewrite deliver_run, Hv, makedirs_outcome_ok.
Qed.

(** X5. Whenever the first element of ["filenames"] is false as a truth
    value (null, false, 0, 0.0, an empty string, list or object), the
    script prints the diagnostic, ends normally and touches no file. *)
Theorem falsy_candidate_prints_diagnostic w records d v rest :
  holds_records decode loads w records →
  second_to_last records = Some (PDict d) →
  d !! "filenames" = Some (PList (v :: rest)) →
  truthy v = false →
  extract decode loads w =
    (Ok tt, World (fs w) (stdout w +:+ "An error has occured. Wrong json format!"
                                   +:+ String newline EmptyString)).
Proof.
  intros Hlog Hrec Hnames Hv.
  rewrite (extract_records decode loads w records Hlog),
          (select_first records d v rest Hrec Hnames).
  by rewrite deliver_falsy.
Qed.

(** X6. When the line at index [length - 2] is valid JSON but not an
    object (a list, a string, a number, null), the call of [.get] raises
    [AttributeError], and the world is as it was. *)
Theorem record_not_an_object_raises w records r :
  holds_records decode loads w records →
  second_to_last records = Some r →
  (∀ d, r ≠ PDict d) →
  extract decode loads w = (Raise AttributeError, w).
Proof.
  intros Hlog Hrec Hr.
  rewrite (extract_records decode loads w records Hlog).
  unfold select. rewrite list_getitem_minus_2, Hrec. simpl.
  destruct r; try done. by destruct (Hr d).
Qed.

(** X7. What line 6 makes of ["filenames"], by its shape: an object gives
    [KeyError]; null, a boolean or a number [TypeError]; an empty string or
    an empty list [IndexError], all with the world as it was; of a
    non-empty string the first character is taken as the candidate path;
    of a non-empty list the first element. *)
Theorem filenames_shapes w records d names :
  holds_records decode loads w records →
  second_to_last records = Some (PDict d) →
  d !! "filenames" = Some names →
  match names with
  | PDict _ => extract decode loads w = (Raise KeyError, w)
  | PBool _ | PInt _ | PFloat _ | PNone => extract decode loads w = (Raise TypeError, w)
  | PStr EmptyString | PList [] => extract decode loads w = (Raise IndexError, w)
  | PStr (String c _) => extract decode loads w = deliver (PStr (String c EmptyString)) w
  | PList (v :: _) => extract decode loads w = deliver v w
  end.
Proof.
  intros Hlog Hrec Hnames.
  rewrite (extract_records decode loads w records Hlog).
  unfold select. rewrite list_getitem_minus_2, Hrec. simpl. rewrite Hnames.
  destruct names as [|b|z|f|[|c s]|[|v l]|d']; done.
Qed.



(** X9. When the candidate names a directory, the script ends with
    [IsADirectoryError], after [os.makedirs] ran; nothing is copied. *)
Theorem directory_source_raises_after_makedirs w records d src rest :
  holds_records decode loads w records →
  second_to_last records = Some (PDict d) →
  d !! "filenames" = Some (PList (PStr src :: rest)) →
  node_at (fs w) src = Some Dir →
  src ≠ "target/test/latest_tests" →
  inside_destination src = false →
  (∀ data mode, fs w !! "target" ≠ Some (File data mode)) →
  (∀ data mode, fs w !! "target/test" ≠ Some (File data mode)) →
  extract decode loads w =
    (Raise IsADirectoryError, World (with_directories (fs w)) (stdout w)).
Proof.
  intros Hlog Hrec Hnames Hsrc N1 N2 Ht Htt.
  rewrite (extract_records decode loads w records Hlog),
          (select_first records d _ rest Hrec Hnames).
  destruct w as [t out]. simpl in *.
  assert (src ≠ EmptyString) by (by intros ->).
  rewrite deliver_after_makedirs by (done || by destruct src).
  rewrite shutil_copy_str. unfold copy_outcome. fold (written_path (with_directories t) src).
  unfold samefile.
  rewrite (bool_decide_eq_false_2 (src = _))
    by (intros Heq; by apply (written_path_outside (with_directories t) src src)).
  rewrite andb_false_r.
  by rewrite (node_at_with_directories_present t src _ Hsrc).
Qed.

(** X11. When the candidate is [target/test/latest_tests] itself and that
    file exists, the script ends with [SameFileError] and the file keeps
    its bytes and its permission bits. *)
Theorem source_is_destination_raises w records d rest data mode :
  holds_records decode loads w records →
  second_to_last records = Some (PDict d) →
  d !! "filenames" = Some (PList (PStr "target/test/latest_tests" :: rest)) →
  fs w !! "target/test/latest_tests" = Some (File data mode) →
  (∀ data mode, fs w !! "target" ≠ Some (File data mode)) →
  (∀ data mode, fs w !! "target/test" ≠ Some (File data mode)) →
  extract decode loads w =
    (Raise SameFileError, World (with_directories (fs w)) (stdout w)) ∧
  with_directories (fs w) !! "target/test/latest_tests" = Some (File data mode).
Proof.
  intros Hlog Hrec Hnames Hsrc Ht Htt.
  rewrite (extract_records decode loads w records Hlog),
          (select_first records d _ rest Hrec Hnames).
  destruct w as [t out]. simpl in *.
  assert (with_directories t !! "target/test/latest_tests" = Some (File data mode)) as Hd
    by (by rewrite with_directories_lookup, Hsrc).
  split; [|done].
  rewrite deliver_after_makedirs by done.
  rewrite shutil_copy_str. unfold copy_outcome, samefile, os_path_exists, os_path_isdir, destination.
  cbn -[lookup insert with_directories bool_decide]. rewrite Hd.
  cbn -[lookup insert with_directories bool_decide]. by rewrite Hd.
Qed.

(** X12. In the copy branch, a regular file at [target] makes
    [os.makedirs] raise [NotADirectoryError], and one at [target/test]
    [FileExistsError]; the script ends there, the world as it was. *)
Theorem file_in_the_way_raises w records v data mode :
  holds_records decode loads w records →
  select records = Ok v →
  truthy v = true →
  (fs w !! "target" = Some (File data mode) →
   fs w !! "target/test" ≠ Some Dir →
   extract decode loads w = (Raise NotADirectoryError, w)) ∧
  (fs w !! "target" = Some Dir →
   fs w !! "target/test" = Some (File data mode) →
   extract decode loads w = (Raise FileExistsError, w)).
Proof.
  intros Hlog Hsel Hv.
  rewrite (extract_records decode loads w records Hlog), Hsel.
  destruct w as [t out]. simpl. rewrite deliver_run, Hv.
  unfold makedirs_outcome, ensure_dir. split; intros Ht Htt.
  - destruct (t !! "target/test") as [[? ?|]|] eqn:E; by crunch Ht E.
  - by crunch Ht Htt.
Qed.

(** X13. A candidate that is true as a truth value but is a list, an
    object or a float is no path: [shutil.copy] raises [TypeError], after
    the directories were made; no file is written. *)
Theorem candidate_not_a_path_raises w records v :
  holds_records decode loads w records →
  select records = Ok v →
  truthy v = true →
  not_a_path v = true →
  (∀ data mode, fs w !! "target" ≠ Some (File data mode)) →
  (∀ data mode, fs w !! "target/test" ≠ Some (File data mode)) →
  extract decode loads w =
    (Raise TypeError, World (with_directories (fs w)) (stdout w)).
Proof.
  intros Hlog Hsel Hv Hnp Ht Htt.
  rewrite (extract_records decode loads w records Hlog), Hsel.
  destruct w as [t out]. simpl in *.
  rewrite deliver_after_makedirs by done.
  by destruct v.
Qed.

Lemma cut_last_sep_no_sep b :
  (∀ c, c ∈ list_ascii_of_string b → c ≠ slash) → cut_last_sep b = (EmptyString, b).
Proof.
  induction b as [|a b IH]; intros Hb; [done|]. simpl.
  rewrite IH by (intros c Hc; apply Hb; simpl; by apply list_elem_of_further).
  assert (a ≠ slash) as Ha by (apply Hb; simpl; apply list_elem_of_here).
  apply Ascii.eqb_neq in Ha. by rewrite Ha.
Qed.

Lemma cut_last_sep_entry x b :
  (∀ c, c ∈ list_ascii_of_string b → c ≠ slash) →
  cut_last_sep (x +:+ String slash b) = (x +:+ String slash EmptyString, b).
Proof.
  intros Hb. induction x as [|a x IH]; simpl.
  - by rewrite (cut_last_sep_no_sep b Hb).
  - rewrite IH. destruct (Ascii.eqb a slash); [done|]. by destruct x.
Qed.

Lemma os_path_split_entry s :
  os_path_split ("target/test/latest_tests/" +:+ os_path_basename s) =
  ("target/test/latest_tests", os_path_basename s).
Proof.
  unfold os_path_split.
  change ("target/test/latest_tests/" +:+ os_path_basename s)
    with ("target/test/latest_tests" +:+ String slash (os_path_basename s)).
  rewrite cut_last_sep_entry by apply cut_last_sep_tail. done.
Qed.

(** X10. When [target/test/latest_tests] is a directory, the copy of a
    source that can be read goes into it, under the base name of the
    source and with its permission bits, unless a directory, or a file that
    its owner may not write, stands there; the script ends normally and
    [target/test/latest_tests] is still a directory. *)
Theorem destination_directory_receives_copy w records d src rest data mode :
  holds_records decode loads w records →
  second_to_last records = Some (PDict d) →
  d !! "filenames" = Some (PList (PStr src :: rest)) →
  node_at (fs w) src = Some (File data mode) →
  readable mode = true →
  (∀ data mode, fs w !! "target" ≠ Some (File data mode)) →
  (∀ data mode, fs w !! "target/test" ≠ Some (File data mode)) →
  fs w !! "target/test/latest_tests" = Some Dir →
  let entry := "target/test/latest_tests/" +:+ os_path_basename src in
  fs w !! entry ≠ Some Dir →
  (∀ data' mode', fs w !! entry = Some (File data' mode') → writable mode' = true) →
  src ≠ entry →
  extract decode loads w =
    (Ok tt, World (<[entry := File data mode]> (with_directories (fs w))) (stdout w)) ∧
  with_directories (fs w) !! "target/test/latest_tests" = Some Dir.
Proof.
  intros Hlog Hrec Hnames Hsrc Hread Ht Htt Hdst entry Hentry Hwrite Hne.
  rewrite (extract_records decode loads w records Hlog),
          (select_first records d _ rest Hrec Hnames).
  destruct w as [t out]. simpl in *.
  assert (with_directories t !! "target/test/latest_tests" = Some Dir) as Hd
    by (by rewrite with_directories_lookup, Hdst).
  split; [|done].
  assert (src ≠ EmptyString) by (by intros ->).
  rewrite deliver_after_makedirs by (done || by destruct src).
  rewrite shutil_copy_str. unfold copy_outcome. fold (written_path (with_directories t) src).
  assert (written_path (with_directories t) src = entry) as ->.
  { unfold written_path, os_path_isdir.
    change (node_at (with_directories t) destination)
      with (with_directories t !! "target/test/latest_tests").
    rewrite Hd. apply os_path_join_destination, basename_not_absolute. }
  unfold samefile. rewrite (bool_decide_eq_false_2 (src = entry)) by done.
  rewrite andb_false_r.
  rewrite (node_at_with_directories_present t src _ Hsrc), Hread.
  assert (node_at (with_directories t) entry = t !! entry) as Hat.
  { assert (node_at (with_directories t) entry = with_directories t !! entry) as -> by done.
    rewrite with_directories_lookup. destruct (t !! entry) as [x|] eqn:E; [done|].
    rewrite decide_False; [done|]. by intros [?|?]. }
  rewrite write_check_intro; try done.
  - unfold resolve_parent, entry. rewrite os_path_split_entry.
    cbn -[lookup with_directories]. by rewrite Hd.
  - by rewrite Hat.
  - intros data' mode'. rewrite Hat. apply Hwrite.
Qed.

Lemma holds_records_functional w records1 records2 :
  holds_records decode loads w records1 →
  holds_records decode loads w records2 →
  records1 = records2.
Proof.
  intros H1%read_json_data_ok H2%read_json_data_ok. congruence.
Qed.

(** X14. The selected source keeps its bytes and its permission bits,
    however the run ends, and also when it lies at the destination or under
    it. *)
Theorem extract_keeps_source w records src data mode :
  holds_records decode loads w records →
  select records = Ok (PStr src) →
  fs w !! src = Some (File data mode) →
  fs (snd (extract decode loads w)) !! src = Some (File data mode).
Proof.
  intros Hlog Hsel Hsrc.
  destruct (extract_ends w)
    as [e| |e t' [->| ->]|e|records' s data' mode' Hlog' Hsel' _ Hne _];
    simpl; try done.
  - by rewrite ensure_dir_lookup, Hsrc.
  - by rewrite with_directories_lookup, Hsrc.
  - rewrite (holds_records_functional w records' records Hlog' Hlog) in Hsel'.
    assert (s = src) as -> by congruence.
    rewrite lookup_insert_ne by done. by rewrite with_directories_lookup, Hsrc.
Qed.

(** X15. Of the record at index [length - 2] only the first element of
    ["filenames"] matters: two logs whose records there agree on it, and
    differ in the rest of the list or in other keys, give the same result
    and the same output, and the same file system up to the bytes of the
    log unless the candidate is the log itself. *)
Theorem only_first_filename_matters w data2 records1 records2 d1 d2 v rest1 rest2 :
  holds_records decode loads w records1 →
  holds_records decode loads (with_log data2 w) records2 →
  second_to_last records1 = Some (PDict d1) →
  second_to_last records2 = Some (PDict d2) →
  d1 !! "filenames" = Some (PList (v :: rest1)) →
  d2 !! "filenames" = Some (PList (v :: rest2)) →
  fst (extract decode loads (with_log data2 w)) = fst (extract decode loads w) ∧
  stdout (snd (extract decode loads (with_log data2 w))) =
    stdout (snd (extract decode loads w)) ∧
  (v ≠ PStr log_name →
   fs (snd (extract decode loads (with_log data2 w))) =
     relog data2 (fs (snd (extract decode loads w)))).
Proof.
  intros H1 H2 Hr1 Hr2 Hn1 Hn2.
  rewrite (extract_records decode loads w records1 H1),
          (extract_records decode loads (with_log data2 w) records2 H2),
          (select_first records1 d1 v rest1 Hr1 Hn1),
          (select_first records2 d2 v rest2 Hr2 Hn2).
  destruct H1 as (data & mode & _ & Hlog & _). destruct w as [t out].
  unfold with_log. simpl in *.
  destruct (deliver_with_log t data mode data2 out v Hlog) as ([Hr Ho] & Hfs).
  by split_and!.
Qed.

Lemma makedirs_outcome_present t out :
  is_Some (t !! "target") →
  t !! "target/test" = Some Dir →
  makedirs_outcome t out = (Ok tt, World t out).
Proof.
  intros [x Ht] Htt. unfold makedirs_outcome, ensure_dir.
  crunch Ht Htt. by destruct x.
Qed.

Lemma with_directories_target t out :
  makedirs_outcome t out = (Ok tt, World (with_directories t) out) →
  is_Some (with_directories t !! "target") ∧
  with_directories t !! "target/test" = Some Dir.
Proof.
  unfold makedirs_outcome, with_directories, ensure_dir.
  destruct (t !! "target") as [[d|]|] eqn:Ht;
    destruct (t !! "target/test") as [[d'|]|] eqn:Htt;
    crunch Ht Htt; intros [= ]; crunch Ht Htt; try done; split; eauto.
Qed.

Lemma entry_not_destination b : "target/test/latest_tests/" +:+ b ≠ destination.
Proof.
  intros Heq. apply (f_equal String.length) in Heq. simpl in Heq. lia.
Qed.

Lemma written_path_after_write t s data mode :
  written_path (<[written_path t s := File data mode]> t) s = written_path t s.
Proof.
  unfold written_path at 1 3. unfold os_path_isdir.
  change (node_at ?m destination) with (m !! destination).
  destruct (decide (written_path t s = destination)) as [Heq|Hne].
  - rewrite Heq, lookup_insert_eq. revert Heq. unfold written_path, os_path_isdir.
    change (node_at t destination) with (t !! destination).
    destruct (t !! destination) as [[? ?|]|]; try done.
  - by rewrite lookup_insert_ne.
Qed.

Lemma written_path_parent t s :
  fst (os_path_split (written_path t s)) ≠ written_path t s.
Proof.
  unfold written_path. destruct (os_path_isdir t destination); [|done].
  rewrite os_path_join_destination by apply basename_not_absolute.
  rewrite os_path_split_entry. simpl. intros Heq. symmetry in Heq.
  by destruct (entry_not_destination _ Heq).
Qed.

Lemma write_check_file t p data mode :
  p ≠ EmptyString →
  resolve_parent t p = Ok tt →
  node_at t p = Some (File data mode) →
  write_check t p = if writable mode then Ok tt else Raise PermissionError.
Proof.
  intros Hp Hres Hat. unfold write_check. destruct p as [|c r]; [done|].
  by rewrite Hres, Hat.
Qed.

(** The copy branch, run again: the file system stays, and so does the
    result when the destination, which has the bits of the source by now,
    may be written. *)
Lemma deliver_twice v t out :
  fs (snd (deliver v (snd (deliver v (World t out))))) = fs (snd (deliver v (World t out))) ∧
  ((∀ s data mode, v = PStr s → node_at (with_directories t) s = Some (File data mode) →
                   writable mode = true) →
   fst (deliver v (snd (deliver v (World t out)))) = fst (deliver v (World t out))).
Proof.
  rewrite (deliver_run v t out).
  destruct (truthy v) eqn:Hv; [|unfold printed; simpl; by rewrite deliver_run, Hv].
  destruct (makedirs_outcome_shape t out) as (r & t1 & Hmk & Hshape). rewrite Hmk.
  destruct r as [[]|e]; simpl.
  - destruct Hshape as [-> Htt].
    destruct (with_directories_target t out Hmk) as [Ht _].
    set (t1 := with_directories t) in *.
    destruct (shutil_copy_shape v t1 out)
      as [[e Hcp]|(s & data & mode & -> & Hs & Hread & Hsame & Hwc & Hcp)];
      rewrite Hcp; simpl.
    + by rewrite deliver_run, Hv, makedirs_outcome_present, Hcp.
    + apply write_check_ok in Hwc as (Hne & Hsep & Hres & Hnd & _).
      pose proof (written_path_after_write t1 s data mode) as Hwp.
      pose proof (written_path_parent t1 s) as Hparent.
      assert (written_path t1 s ≠ "target" ∧ written_path t1 s ≠ "target/test") as [N1 N2]
        by (destruct (written_path_cases t1 s) as [H|[b H]]; by rewrite H).
      assert (s ≠ written_path t1 s) as Hsp by (by eapply samefile_false_ne).
      set (p := written_path t1 s) in *.
      rewrite deliver_run, Hv,
        makedirs_outcome_present by (by rewrite lookup_insert_ne).
      rewrite shutil_copy_str. unfold copy_outcome.
      fold (written_path (<[p := File data mode]> t1) s). rewrite Hwp.
      unfold samefile. rewrite (bool_decide_eq_false_2 (s = p)) by done.
      rewrite andb_false_r.
      rewrite (node_at_ext t1 (<[p := File data mode]> t1) s) by (by rewrite lookup_insert_ne).
      rewrite Hs, Hread.
      assert (resolve_parent (<[p := File data mode]> t1) p = Ok tt) as Hres'.
      { revert Hres Hparent. unfold resolve_parent.
        destruct (fst (os_path_split p)) as [|c r]; [done|]. intros Hres Hhp.
        by rewrite (node_at_ext t1 (<[p := File data mode]> t1) (String c r))
          by (by rewrite lookup_insert_ne). }
      assert (node_at (<[p := File data mode]> t1) p = Some (File data mode)) as Hat
        by (rewrite node_at_lookup by done; by rewrite lookup_insert_eq).
      rewrite (write_check_file _ p data mode Hne Hres' Hat).
      destruct (writable mode) eqn:Hw; simpl.
      * by rewrite insert_insert_eq.
      * split; [done|]. intros Hall. by rewrite (Hall s data mode eq_refl Hs) in Hw.
  - destruct Hshape as (_ & _ & Hagain). by rewrite deliver_run, Hv, Hagain.
Qed.

(** The second run, after any first one. *)
Lemma extract_again w :
  fs (snd (extract decode loads (snd (extract decode loads w)))) =
    fs (snd (extract decode loads w)) ∧
  ((∀ records s data mode,
      holds_records decode loads w records →
      select records = Ok (PStr s) →
      node_at (fs w) s = Some (File data mode) →
      writable mode = true) →
   fst (extract decode loads (snd (extract decode loads w))) = fst (extract decode loads w)).
Proof.
  rewrite (extract_run decode loads w).
  pose proof (read_json_data_world w) as Hw.
  destruct (read_json_data decode loads w) as [[records|e] w0] eqn:Hread;
    simpl in Hw; subst w0; [|simpl; by rewrite extract_run, Hread].
  destruct (select records) as [v|e] eqn:Hsel;
    [|simpl; by rewrite extract_run, Hread, Hsel].
  pose proof (read_json_data_holds w records w Hread) as Hlog.
  assert (holds_records decode loads (snd (deliver v w)) records) as Hlog'.
  { destruct Hlog as (data & mode & text & Hlog & Hrest).
    exists data, mode, text. split; [|done]. rewrite <- Hlog.
    pose proof (extract_unchanged_outside w log_name) as Hframe.
    rewrite (extract_run decode loads w), Hread, Hsel in Hframe. by apply Hframe. }
  rewrite (extract_records decode loads _ records Hlog'), Hsel.
  destruct w as [t out]. destruct (deliver_twice v t out) as [Hfs Hr].
  split; [done|]. intros Hall. apply Hr. intros s data mode -> Hs.
  apply (Hall records s data mode); try done.
  by apply node_at_with_directories_file.
Qed.

(** X16. Running the script again on the world it left, the candidate
    being no number, leaves the file system as the first run left it; and
    it gives the same result when the selected source, if it is a regular
    file, may be written by its owner: the copy hands the permission bits
    of the source to the destination, which the second run opens for
    writing. *)
Theorem extract_twice w records v :
  holds_records decode loads w records →
  select records = Ok v →
  is_descriptor v = false →
  fs (snd (extract decode loads (snd (extract decode loads w)))) =
    fs (snd (extract decode loads w)) ∧
  ((∀ s data mode, v = PStr s → node_at (fs w) s = Some (File data mode) →
                   writable mode = true) →
   fst (extract decode loads (snd (extract decode loads w))) = fst (extract decode loads w)).
Proof.
  intros Hlog Hsel _. destruct (extract_again w) as [Hfs Hr]. split; [done|].
  intros Hall. apply Hr. intros records' s data mode Hlog' Hsel' Hs.
  rewrite (holds_records_functional w records' records Hlog' Hlog) in Hsel'.
  apply (Hall s data mode); [congruence|done].
Qed.

End Further.

(** ** The lines of a text file *)

Lemma append_char_assoc cur c l : (cur +:+ String c EmptyString) +:+ l = cur +:+ String c l.
Proof.
  induction cur as [|a cur IH]; [done|]. rewrite !append_cons. by f_equal.
Qed.

Lemma append_empty_r s : s +:+ EmptyString = s.
Proof. induction s as [|a s IH]; [done|]. rewrite append_cons. by f_equal. Qed.

Lemma append_assoc3 a b c : (a +:+ b) +:+ c = a +:+ b +:+ c.
Proof. induction a as [|x a IH]; [done|]. rewrite !append_cons. by f_equal. Qed.

Lemma plain_line_cons c l :
  plain_line (String c l) = true →
  Ascii.eqb c newline = false ∧ Ascii.eqb c creturn = false ∧ plain_line l = true.
Proof.
  simpl. intros [[Hn%negb_true_iff Hr%negb_true_iff]%andb_true_iff Hl]%andb_true_iff.
  done.
Qed.

(** Reading a plain line up to its terminator. *)
Lemma readlines_from_line cur l ending rest :
  plain_line l = true →
  ending = line_feed ∨ ending = carriage_return_line_feed ∨
    (ending = carriage_return ∧ no_leading_newline rest) →
  readlines_from cur (l +:+ ending +:+ rest) =
  (cur +:+ l +:+ line_feed) :: readlines_from EmptyString rest.
Proof.
  revert cur. induction l as [|c l IH]; intros cur Hl Hend.
  - rewrite !append_nil_l.
    destruct Hend as [->|[->|[-> Hrest]]];
      unfold line_feed, carriage_return_line_feed, carriage_return;
      rewrite ?append_cons, ?append_nil_l; simpl; try done.
    destruct rest as [|c' r']; [done|]. simpl in Hrest.
    apply Ascii.eqb_neq in Hrest. by rewrite Hrest.
  - apply plain_line_cons in Hl as (Hn & Hr & Hl).
    rewrite !append_cons. simpl. rewrite Hn, Hr.
    rewrite (IH _ Hl Hend). by rewrite append_char_assoc.
Qed.

(** Reading a last line that has no terminator. *)
Lemma readlines_from_last cur last :
  plain_line last = true →
  readlines_from cur last = if nonempty (cur +:+ last) then [cur +:+ last] else [].
Proof.
  revert cur. induction last as [|c l IH]; intros cur Hl.
  - simpl. by rewrite append_empty_r.
  - apply plain_line_cons in Hl as (Hn & Hr & Hl).
    simpl. rewrite Hn, Hr.
    rewrite (IH _ Hl). by rewrite append_char_assoc.
Qed.

Lemma no_leading_newline_joined lines last :
  forallb plain_line lines = true → plain_line last = true →
  no_leading_newline (joined carriage_return lines +:+ last).
Proof.
  intros Hlines Hlast. destruct lines as [|l ls]; simpl.
  - rewrite append_nil_l. destruct last as [|c r]; [done|]. simpl.
    apply plain_line_cons in Hlast as (?%Ascii.eqb_neq & _). done.
  - simpl in Hlines. apply andb_true_iff in Hlines as [Hl _].
    destruct l as [|c r]; unfold carriage_return;
      rewrite ?append_cons, ?append_nil_l, ?append_cons; simpl.
    + done.
    + apply plain_line_cons in Hl as (?%Ascii.eqb_neq & _). done.
Qed.

(** X17. Iterating over the text file yields its lines in order, each with
    a single line feed at its end, whichever of the three terminators
    (line feed, carriage return, or both) the log was written with; a last
    line without terminator is yielded as it is. *)
Theorem readlines_joined ending lines last :
  ending = line_feed ∨ ending = carriage_return ∨ ending = carriage_return_line_feed →
  forallb plain_line lines = true →
  plain_line last = true →
  readlines (joined ending lines +:+ last) =
  (map (λ l, l +:+ line_feed) lines ++ (if nonempty last then [last] else []))%list.
Proof.
  intros Hend Hlines Hlast. unfold readlines.
  induction lines as [|l ls IH]; simpl.
  - by rewrite append_nil_l, (readlines_from_last EmptyString last Hlast).
  - simpl in Hlines. apply andb_true_iff in Hlines as [Hl Hls].
    rewrite !append_assoc3.
    rewrite (readlines_from_line EmptyString l ending); [by rewrite (IH Hls)|done|].
    destruct Hend as [->|[->| ->]]; auto.
    right. right. split; [done|]. by apply no_leading_newline_joined.
Qed.

(** ** The further properties at work *)

Lemma extract_frame_witness :
  fs (snd (extract decode_ascii loads_basic world_ab)) !! "/tmp/a" = fs world_ab !! "/tmp/a".
Proof.
  apply (extract_frame decode_ascii loads_basic world_ab "/tmp/a"); try discriminate.
  reflexivity.
Defined.

Lemma extract_keeps_nodes_witness :
  fs (snd (extract decode_ascii loads_basic world_dir_at_destination))
    !! "target/test/latest_tests" = Some Dir ∧
  ∃ data' mode', fs (snd (extract decode_ascii loads_basic world_ab)) !! "/tmp/a" =
                 Some (File data' mode').
Proof.
  split.
  - apply (proj1 (extract_keeps_nodes decode_ascii loads_basic world_dir_at_destination
                    "target/test/latest_tests")).
    reflexivity.
  - apply (proj2 (extract_keeps_nodes decode_ascii loads_basic world_ab "/tmp/a")
             bytes_a mode_binary).
    reflexivity.
Defined.

Lemma extract_normal_exit_witness :
  (truthy (PStr "/tmp/a") = false ∧
   snd (extract decode_ascii loads_basic world_ab) = printed diagnostic world_ab) ∨
  ∃ s data mode,
    PStr "/tmp/a" = PStr s ∧
    node_at (fs world_ab) s = Some (File data mode) ∧
    fs (snd (extract decode_ascii loads_basic world_ab)) !! written_path (fs world_ab) s =
      Some (File data mode) ∧
    stdout (snd (extract decode_ascii loads_basic world_ab)) = stdout world_ab.
Proof.
  apply (extract_normal_exit decode_ascii loads_basic world_ab
           [names_record ["/tmp/a"]; names_record ["/tmp/b"; "/tmp/c"]] (PStr "/tmp/a")).
  - sample_records [artifact_line ["/tmp/a"]; artifact_line ["/tmp/b"; "/tmp/c"]].
  - reflexivity.
  - reflexivity.
  - vm_compute. reflexivity.
Defined.

Lemma falsy_candidate_prints_diagnostic_witness :
  extract decode_ascii loads_basic world_zero =
    (Ok tt, World (fs world_zero)
                  (stdout world_zero +:+ "An error has occured. Wrong json format!"
                                     +:+ String newline EmptyString)).
Proof.
  apply (falsy_candidate_prints_diagnostic decode_ascii loads_basic world_zero
           [PDict {["filenames" := PList [PInt 0]]}; finished_record]
           {["filenames" := PList [PInt 0]]} (PInt 0) []).
  - sample_records [names_line "[0]"; finished_line].
  - reflexivity.
  - reflexivity.
  - reflexivity.
Defined.

Lemma record_not_an_object_raises_witness :
  extract decode_ascii loads_basic world_list_record =
    (Raise AttributeError, world_list_record).
Proof.
  apply (record_not_an_object_raises decode_ascii loads_basic world_list_record
           [PList [PInt 1]; finished_record] (PList [PInt 1])).
  - sample_records ["[1]"; finished_line].
  - reflexivity.
  - intros d. discriminate.
Defined.

Lemma filenames_shapes_witness :
  extract decode_ascii loads_basic world_names_string =
    deliver (PStr "/") world_names_string.
Proof.
  apply (filenames_shapes decode_ascii loads_basic world_names_string
           [PDict {["filenames" := PStr "/tmp/a"]}; finished_record]
           {["filenames" := PStr "/tmp/a"]} (PStr "/tmp/a")).
  - sample_records [names_line (quoted "/tmp/a"); finished_line].
  - reflexivity.
  - reflexivity.
Defined.


Lemma directory_source_raises_after_makedirs_witness :
  extract decode_ascii loads_basic world_dir_source =
    (Raise IsADirectoryError,
     World (with_directories (fs world_dir_source)) (stdout world_dir_source)).
Proof.
  apply (directory_source_raises_after_makedirs decode_ascii loads_basic world_dir_source
           [names_record ["/tmp/d"]; finished_record]
           {["filenames" := PList [PStr "/tmp/d"]]} "/tmp/d" []).
  - sample_records [artifact_line ["/tmp/d"]; finished_line].
  - reflexivity.
  - reflexivity.
  - reflexivity.
  - discriminate.
  - reflexivity.
  - intros data mode. vm_compute. discriminate.
  - intros data mode. vm_compute. discriminate.
Defined.

Lemma destination_directory_receives_copy_witness :
  extract decode_ascii loads_basic world_dir_at_destination =
    (Ok tt, World (<["target/test/latest_tests/a" := File bytes_a mode_binary]>
                     (with_directories (fs world_dir_at_destination)))
                  (stdout world_dir_at_destination)) ∧
  with_directories (fs world_dir_at_destination) !! "target/test/latest_tests" = Some Dir.
Proof.
  apply (destination_directory_receives_copy decode_ascii loads_basic world_dir_at_destination
           [names_record ["/tmp/a"]; names_record ["/tmp/b"; "/tmp/c"]]
           {["filenames" := PList [PStr "/tmp/a"]]} "/tmp/a" [] bytes_a mode_binary).
  - sample_records [artifact_line ["/tmp/a"]; artifact_line ["/tmp/b"; "/tmp/c"]].
  - reflexivity.
  - reflexivity.
  - reflexivity.
  - reflexivity.
  - intros data mode. vm_compute. discriminate.
  - intros data mode. vm_compute. discriminate.
  - reflexivity.
  - vm_compute. discriminate.
  - intros data' mode'. vm_compute. discriminate.
  - vm_compute. discriminate.
Defined.

Lemma source_is_destination_raises_witness :
  extract decode_ascii loads_basic world_same_file =
    (Raise SameFileError,
     World (with_directories (fs world_same_file)) (stdout world_same_file)) ∧
  with_directories (fs world_same_file) !! "target/test/latest_tests" =
    Some (File bytes_b mode_binary).
Proof.
  apply (source_is_destination_raises decode_ascii loads_basic world_same_file
           [names_record ["target/test/latest_tests"]; finished_record]
           {["filenames" := PList [PStr "target/test/latest_tests"]]} [] bytes_b mode_binary).
  - sample_records [artifact_line ["target/test/latest_tests"]; finished_line].
  - reflexivity.
  - reflexivity.
  - reflexivity.
  - intros data mode. vm_compute. discriminate.
  - intros data mode. vm_compute. discriminate.
Defined.

Lemma file_in_the_way_raises_witness :
  extract decode_ascii loads_basic world_file_at_target =
    (Raise NotADirectoryError, world_file_at_target) ∧
  extract decode_ascii loads_basic world_file_at_test =
    (Raise FileExistsError, world_file_at_test).
Proof.
  split.
  - apply (proj1 (file_in_the_way_raises decode_ascii loads_basic world_file_at_target
                    [names_record ["/tmp/a"]; names_record ["/tmp/b"; "/tmp/c"]]
                    (PStr "/tmp/a") bytes_b mode_binary
                    ltac:(sample_records [artifact_line ["/tmp/a"];
                                          artifact_line ["/tmp/b"; "/tmp/c"]])
                    eq_refl eq_refl)).
    + reflexivity.
    + vm_compute. discriminate.
  - apply (proj2 (file_in_the_way_raises decode_ascii loads_basic world_file_at_test
                    [names_record ["/tmp/a"]; names_record ["/tmp/b"; "/tmp/c"]]
                    (PStr "/tmp/a") bytes_b mode_binary
                    ltac:(sample_records [artifact_line ["/tmp/a"];
                                          artifact_line ["/tmp/b"; "/tmp/c"]])
                    eq_refl eq_refl)).
    + reflexivity.
    + reflexivity.
Defined.

Lemma candidate_not_a_path_raises_witness :
  extract decode_ascii loads_basic world_nested =
    (Raise TypeError, World (with_directories (fs world_nested)) (stdout world_nested)).
Proof.
  apply (candidate_not_a_path_raises decode_ascii loads_basic world_nested
           [PDict {["filenames" := PList [PList [PInt 1]]]}; finished_record]
           (PList [PInt 1])).
  - sample_records [names_line "[[1]]"; finished_line].
  - reflexivity.
  - reflexivity.
  - reflexivity.
  - intros data mode. vm_compute. discriminate.
  - intros data mode. vm_compute. discriminate.
Defined.

Lemma extract_keeps_source_witness :
  fs (snd (extract decode_ascii loads_basic world_ab)) !! "/tmp/a" =
    Some (File bytes_a mode_binary).
Proof.
  apply (extract_keeps_source decode_ascii loads_basic world_ab
           [names_record ["/tmp/a"]; names_record ["/tmp/b"; "/tmp/c"]] "/tmp/a"
           bytes_a mode_binary).
  - sample_records [artifact_line ["/tmp/a"]; artifact_line ["/tmp/b"; "/tmp/c"]].
  - reflexivity.
  - reflexivity.
Defined.

Lemma only_first_filename_matters_witness :
  fst (extract decode_ascii loads_basic (with_log log_a_b_finished world_ab)) =
    fst (extract decode_ascii loads_basic world_ab) ∧
  stdout (snd (extract decode_ascii loads_basic (with_log log_a_b_finished world_ab))) =
    stdout (snd (extract decode_ascii loads_basic world_ab)) ∧
  (PStr "/tmp/a" ≠ PStr log_name →
   fs (snd (extract decode_ascii loads_basic (with_log log_a_b_finished world_ab))) =
     relog log_a_b_finished (fs (snd (extract decode_ascii loads_basic world_ab)))).
Proof.
  apply (only_first_filename_matters decode_ascii loads_basic world_ab log_a_b_finished
           [names_record ["/tmp/a"]; names_record ["/tmp/b"; "/tmp/c"]]
           [names_record ["/tmp/a"; "/tmp/b"]; finished_record]
           {["filenames" := PList [PStr "/tmp/a"]]}
           {["filenames" := PList [PStr "/tmp/a"; PStr "/tmp/b"]]}
           (PStr "/tmp/a") [] [PStr "/tmp/b"]).
  - sample_records [artifact_line ["/tmp/a"]; artifact_line ["/tmp/b"; "/tmp/c"]].
  - sample_records [artifact_line ["/tmp/a"; "/tmp/b"]; finished_line].
  - reflexivity.
  - reflexivity.
  - reflexivity.
  - reflexivity.
Defined.

Lemma extract_twice_witness :
  fs (snd (extract decode_ascii loads_basic (snd (extract decode_ascii loads_basic world_ab)))) =
    fs (snd (extract decode_ascii loads_basic world_ab)) ∧
  fst (extract decode_ascii loads_basic (snd (extract decode_ascii loads_basic world_ab))) =
    fst (extract decode_ascii loads_basic world_ab).
Proof.
  destruct (extract_twice decode_ascii loads_basic world_ab
              [names_record ["/tmp/a"]; names_record ["/tmp/b"; "/tmp/c"]] (PStr "/tmp/a"))
    as [Hfs Hr].
  - sample_records [artifact_line ["/tmp/a"]; artifact_line ["/tmp/b"; "/tmp/c"]].
  - reflexivity.
  - reflexivity.
  - split; [exact Hfs|]. apply Hr.
    intros s data mode [= <-] Hs. vm_compute in Hs. injection Hs as _ <-. reflexivity.
Defined.

Lemma readlines_joined_witness :
  readlines (joined carriage_return_line_feed ["a"; "b"] +:+ "c") =
  ["a" +:+ line_feed; "b" +:+ line_feed; "c"].
Proof.
  apply (readlines_joined carriage_return_line_feed ["a"; "b"] "c").
  - right. right. reflexivity.
  - reflexivity.
  - reflexivity.
Defined.
